(** * piboufilings: rate-limited fetch-and-parse pipeline

    A shallow embedding of the core of the [piboufilings] package
    (token-bucket rate limiter, index parsing, header / filing / holdings
    extraction and the CSV data organizer), together with the properties
    of its specification.

    Conventions of the embedding.
    - Python [float] quantities of the rate limiter (rate, capacity,
      tokens, timestamps) are exact rationals [Q]; binary64 rounding is
      not modelled.
    - Python [str] is [list ascii]; documents are ASCII texts.
    - Code that can raise returns an [outcome] / [option]; [try]/[except]
      blocks are written out as matches on it. *)

From Stdlib Require Import QArith Qminmax Qcanon Lqa ZArith Lia List Bool Ascii String DecimalString.
From stdpp Require Import gmap strings.
Import ListNotations.


(* ===================================================================== *)
(** * core/rate_limiter.py                                                *)
(* ===================================================================== *)

Module RateLimiter.

Local Open Scope Q_scope.

(** Exceptions the limiter can raise. *)
Inductive exn := ZeroDivisionError.

(** Result of a call: the returned value or the raised exception. *)
Inductive outcome (A : Type) :=
| Returns (a : A)
| Raises (e : exn).
Arguments Returns {A} a.
Arguments Raises {A} e.

(** The fields of a [TokenBucketRateLimiter] (the lock is omitted: calls
    are sequential here). *)
Record bucket := Bucket {
  rate : Q;
  capacity : Q;
  tokens : Q;
  last_refill_time : Q
}.

(** The wall clock.  [now] is the current time, [reads] counts the calls
    to [time.time()] made so far. *)
Record world := World {
  now : Q;
  reads : nat
}.

Section Clock.

(** [delays n] is the time that passes before the [n]-th reading of the
    clock (scheduling, other threads, work between two readings). *)
Variable delays : nat -> Q.

(** [time.time()] *)
Definition time_time (w : world) : Q * world :=
  let t := now w + delays (reads w) in
  (t, {| now := t; reads := S (reads w) |}).

(** [time.sleep(d)] *)
Definition time_sleep (d : Q) (w : world) : world :=
  {| now := now w + d; reads := reads w |}.

(** [TokenBucketRateLimiter.__init__(rate, capacity=None)] *)
Definition init (r : Q) (cap : option Q) (w : world) : bucket * world :=
  let c := match cap with Some c => c | None => r end in
  let '(t, w1) := time_time w in
  ({| rate := r; capacity := c; tokens := c; last_refill_time := t |}, w1).

(** [TokenBucketRateLimiter._refill] *)
Definition _refill (b : bucket) (w : world) : bucket * world :=
  let '(now_, w1) := time_time w in
  let elapsed := now_ - last_refill_time b in
  let new_tokens := elapsed * rate b in
  ({| rate := rate b; capacity := capacity b;
      tokens := Qmin (capacity b) (tokens b + new_tokens);
      last_refill_time := now_ |}, w1).

(** [self.tokens -= n] *)
Definition take (n : Q) (b : bucket) : bucket :=
  {| rate := rate b; capacity := capacity b;
     tokens := tokens b - n;
     last_refill_time := last_refill_time b |}.

(** Python comparisons on rationals. *)
Definition Qgeb (x y : Q) : bool := Qle_bool y x.
Definition Qgtb (x y : Q) : bool := negb (Qle_bool x y).

(** The part of [acquire] that runs once blocking is decided and the
    wait time is known (lines 73-105). *)
Definition acquire_wait (n : Q) (timeout : option Q) (start_time wait_time : Q)
    (b : bucket) (w : world) : outcome bool * bucket * world :=
  (* if timeout is not None and wait_time > timeout: return False *)
  if match timeout with Some t => Qgtb wait_time t | None => false end
  then (Returns false, b, w)
  else
    (* if timeout is not None and time.time() - start_time >= timeout *)
    let '(late, w1) :=
      match timeout with
      | Some t => let '(t1, w1) := time_time w in (Qgeb (t1 - start_time) t, w1)
      | None => (false, w)
      end in
    if late then (Returns false, b, w1)
    else if Qgtb wait_time 0 then
      (* adjust the wait time to respect the timeout *)
      let '(wait_time', w2) :=
        match timeout with
        | Some t =>
            let '(t2, w2) := time_time w1 in
            let remaining_timeout := t - (t2 - start_time) in
            (Qmin wait_time remaining_timeout, w2)
        | None => (wait_time, w1)
        end in
      if match timeout with Some _ => Qle_bool wait_time' 0 | None => false end
      then (Returns false, b, w2)
      else
        let w3 := time_sleep wait_time' w2 in
        let '(b1, w4) := _refill b w3 in
        if Qgeb (tokens b1) n
        then (Returns true, take n b1, w4)
        else (Returns false, b1, w4)
    else
      (* take the tokens and return True *)
      (Returns true, take n b, w1).

(** [TokenBucketRateLimiter.acquire(tokens, block, timeout)] *)
Definition acquire (n : Z) (block : bool) (timeout : option Q)
    (b : bucket) (w : world) : outcome bool * bucket * world :=
  let n := inject_Z n in
  let '(start_time, w0) := time_time w in
  let '(b1, w1) := _refill b w0 in
  if Qgeb (tokens b1) n then (Returns true, take n b1, w1)
  else if negb block then (Returns false, b1, w1)
  else
    let deficit := n - tokens b1 in
    if Qeq_bool (rate b1) 0 then (Raises ZeroDivisionError, b1, w1)
    else
      let wait_time := deficit / rate b1 in
      acquire_wait n timeout start_time wait_time b1 w1.



(** [GlobalRateLimiter]: the singleton wraps one bucket whose rate is
    [rate * safety_factor]; a second construction keeps the first. *)
Definition global_init (instance : option bucket) (r safety_factor : Q) (w : world)
    : bucket * world :=
  match instance with
  | Some b => (b, w)
  | None => init (r * safety_factor) None w
  end.


End Clock.

End RateLimiter.

(* ===================================================================== *)
(** * Python strings                                                      *)
(* ===================================================================== *)

Module Py.

(** A Python [str] (ASCII). *)
Definition str := list ascii.

(** String literals. *)
Definition L (s : string) : str := list_ascii_of_string s.

Definition code (c : ascii) : nat := nat_of_ascii c.

Definition in_range (lo hi : nat) (c : ascii) : bool :=
  Nat.leb lo (code c) && Nat.leb (code c) hi.

(** [str.isspace] on one character, which is also the class [\s]:
    TAB, LF, VT, FF, CR, FS, GS, RS, US and SPACE. *)
Definition is_space (c : ascii) : bool :=
  in_range 9 13 c || in_range 28 32 c.

(** The class [\d]. *)
Definition is_digit (c : ascii) : bool := in_range 48 57 c.

Definition is_upper (c : ascii) : bool := in_range 65 90 c.
Definition is_lower (c : ascii) : bool := in_range 97 122 c.
Definition is_alpha (c : ascii) : bool := is_upper c || is_lower c.

(** The class [\w]. *)
Definition is_word (c : ascii) : bool :=
  is_alpha c || is_digit c || Ascii.eqb c "_"%char.

Definition is_char (x : ascii) (c : ascii) : bool := Ascii.eqb c x.
Definition not_char (x : ascii) (c : ascii) : bool := negb (Ascii.eqb c x).

Definition newline : ascii := ascii_of_nat 10.

(** The class [.] (without DOTALL). *)
Definition is_dot (c : ascii) : bool := not_char newline c.

(** [s.lower()] on one character. *)
Definition lower (c : ascii) : ascii :=
  if is_upper c then ascii_of_nat (code c + 32) else c.

Fixpoint str_eqb (a b : str) : bool :=
  match a, b with
  | [], [] => true
  | x :: a', y :: b' => Ascii.eqb x y && str_eqb a' b'
  | _, _ => false
  end.

(** [s.startswith(l)], returning the rest of [s] after [l]. *)
Fixpoint strip_prefix (l s : str) : option str :=
  match l with
  | [] => Some s
  | x :: l' =>
      match s with
      | [] => None
      | y :: s' => if Ascii.eqb x y then strip_prefix l' s' else None
      end
  end.

(** The same, ignoring case (re.IGNORECASE on a literal). *)
Fixpoint strip_prefix_i (l s : str) : option str :=
  match l with
  | [] => Some s
  | x :: l' =>
      match s with
      | [] => None
      | y :: s' => if Ascii.eqb (lower x) (lower y) then strip_prefix_i l' s' else None
      end
  end.

(** Whether [s] starts with a character of class [p]. *)
Definition starts_in (p : ascii -> bool) (s : str) : bool :=
  match s with
  | c :: _ => p c
  | [] => false
  end.

Fixpoint drop_while (p : ascii -> bool) (s : str) : str :=
  match s with
  | [] => []
  | c :: s' => if p c then drop_while p s' else s
  end.

(** [s.lstrip()], [s.rstrip()], [s.strip()], and [s.strip(chars)]. *)
Definition lstrip_with (p : ascii -> bool) (s : str) : str := drop_while p s.
Definition rstrip_with (p : ascii -> bool) (s : str) : str :=
  rev (drop_while p (rev s)).
Definition strip_with (p : ascii -> bool) (s : str) : str :=
  rstrip_with p (lstrip_with p s).
Definition strip (s : str) : str := strip_with is_space s.

(** [s[a:b]] and [s[a:]] for non-negative indices. *)
Definition slice (s : str) (a b : nat) : str := firstn (b - a) (skipn a s).
Definition slice_from (s : str) (a : nat) : str := skipn a s.

(** [s.replace(old, "")] for a one-character [old]. *)
Definition remove_char (x : ascii) (s : str) : str :=
  List.filter (not_char x) s.

(** [s.split()[0]]: the first whitespace-separated word, if any. *)
Fixpoint take_while (p : ascii -> bool) (s : str) : str :=
  match s with
  | [] => []
  | c :: s' => if p c then c :: take_while p s' else []
  end.

Definition first_word (s : str) : option str :=
  match drop_while is_space s with
  | [] => None
  | s' => Some (take_while (fun c => negb (is_space c)) s')
  end.

(** [s.find(l)] restricted to positions [>= pos], scanning upwards. *)
Fixpoint find_from (l s : str) (pos : nat) : option nat :=
  match strip_prefix l s with
  | Some _ => Some pos
  | None =>
      match s with
      | [] => None
      | _ :: s' => find_from l s' (S pos)
      end
  end.

(** Every index at which [l] occurs in [s], in increasing order ([s] is
    the text from index [pos] on). *)
Fixpoint occurrences_from (l s : str) (pos : nat) : list nat :=
  match strip_prefix l s with Some _ => [pos] | None => [] end ++
  match s with
  | [] => []
  | _ :: s' => occurrences_from l s' (S pos)
  end.

Definition occurrences (l s : str) : list nat := occurrences_from l s 0.

(** [s.rfind(l, start)]: the highest index [>= start] at which [l]
    occurs, or [None] (Python's [-1]). *)
Fixpoint rfind_aux (l s : str) (pos : nat) : option nat :=
  match s with
  | [] => match strip_prefix l [] with Some _ => Some pos | None => None end
  | _ :: s' =>
      match rfind_aux l s' (S pos) with
      | Some i => Some i
      | None => match strip_prefix l s with Some _ => Some pos | None => None end
      end
  end.

Definition rfind (l s : str) (start : nat) : option nat :=
  if Nat.ltb (length s) start then None
  else rfind_aux l (skipn start s) start.

End Py.

(* ===================================================================== *)
(** * The fragment of Python's [re] used by the parsers                  *)
(* ===================================================================== *)

Module Re.
Import Py.

(** Pattern items.  Every repetition in the package's patterns is over a
    single character class, and every pattern has at most one group. *)
Inductive item :=
| Lit (l : str)                         (* literal text *)
| LitI (l : str)                        (* literal text under IGNORECASE *)
| Rep (c : ascii -> bool) (lo : nat) (hi : option nat) (greedy : bool)
                                        (* c{lo,hi}, greedy or lazy *)
| Alt (alts : list str)                 (* (a|b|...) between literals *)
| GOpen                                 (* ( *)
| GClose.                               (* ) *)

Definition pattern := list item.

(** State of group 1 while matching. *)
Inductive gstate :=
| GNone
| GRec (acc : str)
| GDone (txt : str).

Definition record (g : gstate) (l : str) : gstate :=
  match g with
  | GRec acc => GRec (acc ++ l)
  | _ => g
  end.

Definition close (g : gstate) : gstate :=
  match g with
  | GRec acc => GDone acc
  | _ => g
  end.

(** Length of the longest prefix of [s] in class [c], at most [hi]. *)
Fixpoint run_length (c : ascii -> bool) (hi : option nat) (s : str) : nat :=
  match hi with
  | Some 0 => 0
  | _ =>
      match s with
      | [] => 0
      | x :: s' =>
          if c x then S (run_length c (option_map pred hi) s') else 0
      end
  end.

(** The repetition counts to try, in the order the backtracking matcher
    tries them: longest first when greedy, shortest first when lazy. *)
Definition counts (lo m : nat) (greedy : bool) : list nat :=
  let up := seq lo (S m - lo) in
  if greedy then rev up else up.

Section FirstSome.
Context {A B : Type} (f : A -> option B).
Fixpoint first_some (l : list A) : option B :=
  match l with
  | [] => None
  | x :: l' =>
      match f x with
      | Some r => Some r
      | None => first_some l'
      end
  end.
End FirstSome.

(** [match_here p s n g]: match pattern [p] at the start of [s], having
    consumed [n] characters so far; returns the total number of consumed
    characters and the group state of the first successful path of the
    backtracking search. *)
Fixpoint match_here (p : pattern) (s : str) (n : nat) (g : gstate)
    : option (nat * gstate) :=
  match p with
  | [] => Some (n, g)
  | Lit l :: p' =>
      match strip_prefix l s with
      | Some s' => match_here p' s' (n + length l) (record g l)
      | None => None
      end
  | LitI l :: p' =>
      match strip_prefix_i l s with
      | Some s' => match_here p' s' (n + length l) (record g (firstn (length l) s))
      | None => None
      end
  | Rep c lo hi greedy :: p' =>
      first_some
        (fun k => match_here p' (skipn k s) (n + k) (record g (firstn k s)))
        (counts lo (run_length c hi s) greedy)
  | Alt alts :: p' =>
      first_some
        (fun l =>
           match strip_prefix l s with
           | Some s' => match_here p' s' (n + length l) (record g l)
           | None => None
           end)
        alts
  | GOpen :: p' => match_here p' s n (GRec [])
  | GClose :: p' => match_here p' s n (close g)
  end.

(** A match object: [m.start()], [m.end()] and [m.group(1)]. *)
Record mobj := Match {
  m_start : nat;
  m_end : nat;
  m_group1 : option str
}.

Definition group_text (g : gstate) : option str :=
  match g with
  | GDone t => Some t
  | _ => None
  end.

Definition match_at (p : pattern) (s : str) (pos : nat) : option mobj :=
  match match_here p s 0 GNone with
  | Some (n, g) => Some {| m_start := pos; m_end := pos + n; m_group1 := group_text g |}
  | None => None
  end.

(** [re.search(p, s)] on the suffix [s] that starts at index [pos]: the
    match at the leftmost position where the pattern matches. *)
Fixpoint search_from (p : pattern) (s : str) (pos : nat) : option mobj :=
  match match_at p s pos with
  | Some m => Some m
  | None =>
      match s with
      | [] => None
      | _ :: s' => search_from p s' (S pos)
      end
  end.

Definition search (p : pattern) (s : str) : option mobj := search_from p s 0.

(** [re.finditer(p, s)]: successive non-overlapping matches.  [skip]
    counts the characters still covered by the previous match.  (The
    patterns used with [finditer] and [sub] never match the empty
    string.) *)
Fixpoint finditer_from (p : pattern) (s : str) (pos skip : nat) : list mobj :=
  match s with
  | [] => []
  | _ :: s' =>
      match skip with
      | S k => finditer_from p s' (S pos) k
      | O =>
          match match_at p s pos with
          | Some m => m :: finditer_from p s' (S pos) (m_end m - m_start m - 1)
          | None => finditer_from p s' (S pos) 0
          end
      end
  end.

Definition finditer (p : pattern) (s : str) : list mobj := finditer_from p s 0 0.

(** [re.sub(p, "", s)]: delete every non-overlapping match. *)
Fixpoint sub_empty_from (p : pattern) (s : str) (skip : nat) : str :=
  match s with
  | [] => []
  | c :: s' =>
      match skip with
      | S k => sub_empty_from p s' k
      | O =>
          match match_at p s 0 with
          | Some m => sub_empty_from p s' (m_end m - 1)
          | None => c :: sub_empty_from p s' 0
          end
      end
  end.

Definition sub_empty (p : pattern) (s : str) : str := sub_empty_from p s 0.

(** Shorthands for the repetitions that occur. *)
Definition plus (c : ascii -> bool) : item := Rep c 1 None true.
Definition star (c : ascii -> bool) : item := Rep c 0 None true.
Definition plus_lazy (c : ascii -> bool) : item := Rep c 1 None false.
Definition star_lazy (c : ascii -> bool) : item := Rep c 0 None false.
Definition exactly (k : nat) (c : ascii -> bool) : item := Rep c k (Some k) true.

(** [LABEL:\s+(c+)] *)
Definition labeled (label : string) (c : ascii -> bool) : pattern :=
  [Lit (L label); plus is_space; GOpen; plus c; GClose].

End Re.

(* ===================================================================== *)
(** * Python numbers: [float(s)], [int(x)], [str(n)]                     *)
(* ===================================================================== *)

Module PyNum.
Import Py.

(** A Python [float]: a finite value (an exact rational, kept reduced),
    NaN or an infinity. *)
Inductive fval :=
| Fin (q : Q)
| FNaN
| FInf (negative : bool).

Definition digit_value (c : ascii) : Z := Z.of_nat (code c - 48).

Definition starts_with_digit (s : str) : bool :=
  match s with
  | c :: _ => is_digit c
  | [] => false
  end.

(** [digitpart ::= digit (["_"] digit)*], read from the front of [s] once
    its first digit is known to be there: the value read so far, the
    number of digits read, and the rest of the text. *)
Fixpoint digitpart (s : str) (acc : Z) (cnt : nat) : Z * nat * str :=
  match s with
  | c :: s' =>
      if is_digit c then digitpart s' (acc * 10 + digit_value c)%Z (S cnt)
      else if Ascii.eqb c "_"%char && Nat.ltb 0 cnt && starts_with_digit s'
           then digitpart s' acc cnt
           else (acc, cnt, s)
  | [] => (acc, cnt, s)
  end.

(** An optional sign: [true] when negative. *)
Definition sign (s : str) : bool * str :=
  match s with
  | c :: s' =>
      if Ascii.eqb c "-"%char then (true, s')
      else if Ascii.eqb c "+"%char then (false, s')
      else (false, s)
  | [] => (false, s)
  end.

Definition apply_sign (neg : bool) (q : Q) : Q := if neg then Qopp q else q.

(** [10 ^ e] for an integer [e]. *)
Definition pow10 (e : Z) : Q := Qpower (10 # 1) e.

(** The exponent part, if any: [("e"|"E") [sign] digitpart]. *)
Definition exponent (s : str) : option (Z * str) :=
  match s with
  | [] => Some (0%Z, [])
  | c :: s' =>
      if Ascii.eqb (lower c) "e"%char then
        let '(neg, s1) := sign s' in
        if starts_with_digit s1 then
          let '(e, _, rest) := digitpart s1 0 0 in
          Some ((if neg then - e else e)%Z, rest)
        else None
      else Some (0%Z, s)
  end.

(** The mantissa: [digitpart ["." [digitpart]] | "." digitpart], as an
    integer and the number of fraction digits. *)
Definition mantissa (s : str) : option (Z * nat * str) :=
  if starts_with_digit s then
    let '(i, _, s1) := digitpart s 0 0 in
    match s1 with
    | c :: s2 =>
        if Ascii.eqb c "."%char then
          if starts_with_digit s2 then
            let '(m, fd, s3) := digitpart s2 i 0 in Some (m, fd, s3)
          else Some (i, 0%nat, s2)
        else Some (i, 0%nat, s1)
    | [] => Some (i, 0%nat, s1)
    end
  else
    match s with
    | c :: s2 =>
        if Ascii.eqb c "."%char && starts_with_digit s2 then
          let '(m, fd, s3) := digitpart s2 0 0 in Some (m, fd, s3)
        else None
    | [] => None
    end.

(** [float(s)] for a string; [None] is [ValueError]. *)
Definition py_float (s : str) : option fval :=
  let '(neg, body) := sign (strip s) in
  let low := map lower body in
  if str_eqb low (L "inf") || str_eqb low (L "infinity") then Some (FInf neg)
  else if str_eqb low (L "nan") then Some FNaN
  else
    match mantissa body with
    | Some (m, fd, s1) =>
        match exponent s1 with
        | Some (e, []) =>
            Some (Fin (Qred (apply_sign neg (inject_Z m * pow10 (e - Z.of_nat fd)))))
        | _ => None
        end
    | None => None
    end.

(** Truncation towards zero. *)
Definition Qtrunc (q : Q) : Z := Z.quot (Qnum q) (Z.pos (Qden q)).

Definition is_integral (q : Q) : bool := Z.eqb (Z.rem (Qnum q) (Z.pos (Qden q))) 0.

(** [int(s)] for a string: an optional sign and a [digitpart]. *)
Definition py_int (s : str) : option Z :=
  let '(neg, body) := sign (strip s) in
  if starts_with_digit body then
    match digitpart body 0 0 with
    | (z, _, []) => Some (if neg then - z else z)%Z
    | _ => None
    end
  else None.

(** [str(n)] for an integer. *)
Definition str_of_Z (z : Z) : str :=
  list_ascii_of_string (DecimalString.NilZero.string_of_int (Z.to_int z)).

End PyNum.

(* ===================================================================== *)
(** * pandas: cells, rows and frames                                     *)
(* ===================================================================== *)

Module Pandas.
Import Py PyNum.

(** Exceptions raised by the modelled library calls. *)
Inductive exn :=
| TypeError
| ValueError
| KeyError
| IndexError.

Inductive outcome (A : Type) :=
| Returns (a : A)
| Raises (e : exn).
Arguments Returns {A} a.
Arguments Raises {A} e.

Definition bind {A B} (o : outcome A) (k : A -> outcome B) : outcome B :=
  match o with
  | Returns a => k a
  | Raises e => Raises e
  end.

Notation "'let*' x ':=' o 'in' k" := (bind o (fun x => k))
  (at level 10, x name, o at level 100, k at level 200).

(** The value of one cell.  [NA] stands for every missing-value marker
    ([pd.NA], a missing string and [NaT]); [Str] is a Python [str]. *)
Inductive cell :=
| NA
| Str (s : str)
| Float (f : fval)
| Int (z : Z)
| Boolean (b : bool)
| Timestamp (ymd : str).

(** A dict keyed by field name; also one row of a frame. *)
Abbreviation row := (gmap string cell).

(** A [DataFrame]: its column labels and its rows. *)
Record frame := Frame {
  columns : list string;
  rows : list row
}.

(** [pd.DataFrame()] *)
Definition empty_frame : frame := Frame [] [].

(** [df.empty] *)
Definition is_empty (df : frame) : bool :=
  match columns df, rows df with
  | [], _ => true
  | _, [] => true
  | _, _ => false
  end.

(** [col in df.columns] *)
Definition has_column (col : string) (df : frame) : bool :=
  existsb (String.eqb col) (columns df).

(** A missing entry of a row reads as [NA]. *)
Definition get (col : string) (r : row) : cell :=
  match r !! col with
  | Some c => c
  | None => NA
  end.

(** [df[col]], as the list of the column's values ([KeyError] without the
    column). *)
Definition column (col : string) (df : frame) : outcome (list cell) :=
  if has_column col df then Returns (map (get col) (rows df))
  else Raises KeyError.

(** [df[col].iloc[0]] *)
Definition iloc0 (col : string) (df : frame) : outcome cell :=
  let* vs := column col df in
  match vs with
  | v :: _ => Returns v
  | [] => Raises IndexError
  end.

(** [df[col] = values] for a column of the frame's length (a new label is
    added last). *)
Fixpoint set_values (col : string) (vs : list cell) (rs : list row) : list row :=
  match rs, vs with
  | r :: rs', v :: vs' => <[col := v]> r :: set_values col vs' rs'
  | _, _ => rs
  end.

Definition set_column (col : string) (vs : list cell) (df : frame) : frame :=
  {| columns := if has_column col df then columns df else columns df ++ [col];
     rows := set_values col vs (rows df) |}.

(** [df[col] = f(df[col])] for a cell-wise [f] *)
Definition map_column (col : string) (f : cell -> cell) (df : frame) : frame :=
  {| columns := columns df;
     rows := map (fun r => <[col := f (get col r)]> r) (rows df) |}.

(** [df[col] = v] for a scalar [v] *)
Definition set_scalar (col : string) (v : cell) (df : frame) : frame :=
  {| columns := if has_column col df then columns df else columns df ++ [col];
     rows := map (fun r => <[col := v]> r) (rows df) |}.

(** [float(x)] on a cell of an object column. *)
Definition float_of_cell (c : cell) : option fval :=
  match c with
  | Str s => py_float s
  | Float f => Some f
  | Int z => Some (Fin (inject_Z z))
  | Boolean b => Some (Fin (if b then 1 else 0))
  | NA => None
  | Timestamp _ => None
  end.

Fixpoint all_some {A} (l : list (option A)) : option (list A) :=
  match l with
  | [] => Some []
  | Some a :: l' =>
      match all_some l' with
      | Some r => Some (a :: r)
      | None => None
      end
  | None :: _ => None
  end.

(** [series.astype(float, errors='ignore')]: the whole column converts,
    or it is returned as it was. *)
Definition astype_float_ignore (vs : list cell) : list cell :=
  match all_some (map float_of_cell vs) with
  | Some fs => map Float fs
  | None => vs
  end.

(** [series.str.replace('-', '')]: missing and non-string cells give a
    missing value. *)
Definition str_remove_hyphens (c : cell) : cell :=
  match c with
  | Str s => Str (remove_char "-"%char s)
  | _ => NA
  end.

(** [series.map({'true': True, 'false': False})] *)
Definition map_true_false (c : cell) : cell :=
  match c with
  | Str s =>
      if str_eqb s (L "true") then Boolean true
      else if str_eqb s (L "false") then Boolean false
      else NA
  | _ => NA
  end.

(** [int(x)] on a cell taken out of a frame. *)
Definition int_of_cell (c : cell) : outcome Z :=
  match c with
  | Int z => Returns z
  | Float (Fin q) => Returns (Qtrunc q)
  | Float _ => Raises ValueError
  | Boolean b => Returns (if b then 1 else 0)%Z
  | Str s =>
      match py_int s with
      | Some z => Returns z
      | None => Raises ValueError
      end
  | NA => Raises TypeError
  | Timestamp _ => Raises TypeError
  end.

(** Python's [==] between two cells, as [x in series.values] and
    [series == x] use it: numbers compare by value, a missing value is
    equal to nothing. *)
Definition fval_eqb (a b : fval) : bool :=
  match a, b with
  | Fin p, Fin q => Qeq_bool p q
  | FInf x, FInf y => Bool.eqb x y
  | _, _ => false
  end.

Definition cell_eqb (a b : cell) : bool :=
  match a, b with
  | Str s, Str t => str_eqb s t
  | Timestamp s, Timestamp t => str_eqb s t
  | NA, _ | _, NA => false
  | Str _, _ | _, Str _ => false
  | Timestamp _, _ | _, Timestamp _ => false
  | x, y =>
      match float_of_cell x, float_of_cell y with
      | Some f, Some g => fval_eqb f g
      | _, _ => false
      end
  end.

End Pandas.

(* ===================================================================== *)
(** * xml.etree.ElementTree: parsed trees and path lookups               *)
(* ===================================================================== *)

Module ET.
Import Py.

(** A qualified tag: namespace URI and local name. *)
Definition qname := (str * str)%type.

(** A parsed element: its tag, its text ([None] when the element has no
    text before its first child) and its children in document order. *)
#[warnings="-register-all"]
Inductive element :=
| Element (tag : qname) (text : option str) (children : list element).

Definition tag (e : element) : qname := let 'Element t _ _ := e in t.
Definition text (e : element) : option str := let 'Element _ t _ := e in t.
Definition children (e : element) : list element := let 'Element _ _ c := e in c.

Definition qname_eqb (a b : qname) : bool :=
  str_eqb (fst a) (fst b) && str_eqb (snd a) (snd b).

(** All proper descendants of [e] in document order. *)
Fixpoint descendants (e : element) : list element :=
  let 'Element _ _ cs := e in
  flat_map (fun c => c :: descendants c) cs.

(** [e.findall('.//t')] *)
Definition findall_descendants (t : qname) (e : element) : list element :=
  List.filter (fun d => qname_eqb (tag d) t) (descendants e).

(** [e.findall('t')]: the children of [e] tagged [t]. *)
Definition findall_children (t : qname) (e : element) : list element :=
  List.filter (fun d => qname_eqb (tag d) t) (children e).

(** [e.find('t')] *)
Definition find (t : qname) (e : element) : option element :=
  hd_error (findall_children t e).

(** [e.find('t/u')]: the first [u] child of a [t] child of [e]. *)
Definition find2 (t u : qname) (e : element) : option element :=
  hd_error (flat_map (findall_children u) (findall_children t e)).

End ET.

(* ===================================================================== *)
(** * core/data_organizer.py                                              *)
(* ===================================================================== *)

Module DataOrganizer.
Import Py PyNum Pandas.

(** The text of an XML sub-element as [parse_holdings] reads it: the
    element's text, [None] for an element without text, or [pd.NA] for a
    missing element. *)
Inductive text :=
| Txt (s : str)
| TNone
| TNA.

(** One row of the holdings frame.  The five numeric columns are
    [Int64] after conversion ([None] is [<NA>]).  [PUT_CALL] is [None]
    when the frame has no such column. *)
Record holding := Holding {
  ACCESSION_NUMBER : option str;
  CONFORMED_DATE : option str;
  NAME_OF_ISSUER : text;
  TITLE_OF_CLASS : text;
  CUSIP : text;
  SHARE_VALUE : option Z;
  SHARE_AMOUNT : option Z;
  SH_PRN : text;
  PUT_CALL : option text;
  DISCRETION : text;
  SOLE_VOTING_AUTHORITY : option Z;
  SHARED_VOTING_AUTHORITY : option Z;
  NONE_VOTING_AUTHORITY : option Z
}.

(** The holdings frame; [pd.DataFrame()] is the empty list. *)
Definition holdings_frame := list holding.

(** A CSV file, line by line: a header line or one record. *)
Inductive csv_line :=
| Header (cols : list string)
| Data (r : row).

Definition csv := list csv_line.

(** [df.to_csv(..., header=h, index=False)]: the lines written. *)
Definition to_csv (header : bool) (df : frame) : csv :=
  (if header then [Header (columns df)] else []) ++ map Data (rows df).

(** What the organizer keeps on disk under [base_dir]:
    [accession_info.csv], [company_info.csv] ([None]: no such file) and
    [holdings/<cik>/<accession_number>.csv]. *)
Record sink := Sink {
  accession_info_file : option csv;
  company_info_file : option csv;
  holdings_files : gmap (str * str) holdings_frame
}.

(** A fresh [base_dir]. *)
Definition empty_sink : sink :=
  {| accession_info_file := None; company_info_file := None; holdings_files := ∅ |}.

Section Organizer.

(** [pd.read_csv]: the frame read back from a file (with the column
    types pandas infers). *)
Variable read_csv : csv -> frame.

(** [DataOrganizer.save_accession_info] *)
Definition save_accession_info (accession_info_df : frame) (s : sink) : sink :=
  (* Check if file exists to determine if we need to write headers *)
  let file_exists := match accession_info_file s with Some _ => true | None => false end in
  (* Append to the CSV file *)
  let old := match accession_info_file s with Some f => f | None => [] end in
  {| accession_info_file := Some (old ++ to_csv (negb file_exists) accession_info_df);
     company_info_file := company_info_file s;
     holdings_files := holdings_files s |}.

Definition write_company_info (df : frame) (s : sink) : sink :=
  {| accession_info_file := accession_info_file s;
     company_info_file := Some (to_csv true df);
     holdings_files := holdings_files s |}.

(** [existing_df.loc[existing_df['CIK'] == new_cik] = new_row]: the rows
    selected by the mask take the new row's values, column by column. *)
Definition assign_row (cols : list string) (new_row : row) (r : row) : row :=
  fold_left (fun acc c => <[c := get c new_row]> acc) cols r.

(** [pd.concat([a, b], ignore_index=True)] *)
Definition concat (a b : frame) : frame :=
  {| columns := columns a ++ List.filter (fun c => negb (has_column c a)) (columns b);
     rows := rows a ++ rows b |}.

(** [DataOrganizer.save_company_info] *)
Definition save_company_info (company_info_df : frame) (s : sink)
    : outcome unit * sink :=
  match company_info_file s with
  | Some f =>
      let existing_df := read_csv f in
      (* Get the CIK from the new data *)
      match iloc0 "CIK" company_info_df with
      | Raises e => (Raises e, s)
      | Returns new_cik =>
          match column "CIK" existing_df with
          | Raises e => (Raises e, s)
          | Returns ciks =>
              let updated :=
                if existsb (cell_eqb new_cik) ciks then
                  match rows company_info_df with
                  | new_row :: _ =>
                      {| columns := columns existing_df;
                         rows := map (fun r =>
                                   if cell_eqb (get "CIK" r) new_cik
                                   then assign_row (columns existing_df) new_row r
                                   else r) (rows existing_df) |}
                  | [] => existing_df
                  end
                else concat existing_df company_info_df in
              (Returns tt, write_company_info updated s)
          end
      end
  | None => (Returns tt, write_company_info company_info_df s)
  end.

(** [DataOrganizer.save_holdings] *)
Definition save_holdings (holdings_df : holdings_frame) (cik accession_number : str)
    (s : sink) : sink :=
  {| accession_info_file := accession_info_file s;
     company_info_file := company_info_file s;
     holdings_files := <[(cik, accession_number) := holdings_df]> (holdings_files s) |}.

(** [str(int(df[col].iloc[0]))] *)
Definition key_of (col : string) (df : frame) : outcome str :=
  let* c := iloc0 col df in
  let* z := int_of_cell c in
  Returns (str_of_Z z).

(** [DataOrganizer.process_filing_data] *)
Definition process_filing_data (accession_info_df company_info_df : frame)
    (holdings_df : holdings_frame) (s : sink) : outcome unit * sink :=
  (* Extract CIK and accession number *)
  match key_of "CIK" accession_info_df with
  | Raises e => (Raises e, s)
  | Returns cik =>
      match key_of "ACCESSION_NUMBER" accession_info_df with
      | Raises e => (Raises e, s)
      | Returns accession_number =>
          (* Save all data *)
          let s1 := save_accession_info accession_info_df s in
          match save_company_info company_info_df s1 with
          | (Raises e, s2) => (Raises e, s2)
          | (Returns _, s2) =>
              (Returns tt, save_holdings holdings_df cik accession_number s2)
          end
      end
  end.

End Organizer.

(** The records stored in a CSV file for one accession number. *)
Definition records_for (accession_number : cell) (f : csv) : list row :=
  flat_map (fun l =>
              match l with
              | Data r =>
                  if cell_eqb (get "ACCESSION_NUMBER" r) accession_number
                  then [r] else []
              | Header _ => []
              end) f.

End DataOrganizer.

(* ===================================================================== *)
(** * parsers/base_parser.py                                              *)
(* ===================================================================== *)

Module BaseFilingParser.
Import Py Re Pandas.

(** A table of [field: (pattern, default)] entries. *)
Definition table := list (string * (pattern * cell)).

(** [[A-Za-z]] and [[^[]] and [[\w-]] *)
Definition is_letter : ascii -> bool := is_alpha.
Definition not_bracket : ascii -> bool := not_char "["%char.
Definition is_word_or_hyphen (c : ascii) : bool := is_word c || is_char "-"%char c.

(** The patterns of [parse_company_info]. *)
Definition company_patterns : table := [
  ("CIK",                      (labeled "CENTRAL INDEX KEY:" is_digit, NA));
  ("IRS_NUMBER",               (labeled "IRS NUMBER:" is_digit, NA));
  ("COMPANY_CONFORMED_NAME",   (labeled "COMPANY CONFORMED NAME:" is_dot, NA));
  ("DATE",                     (labeled "DATE AS OF CHANGE:" is_digit, NA));
  ("STATE_INC",                (labeled "STATE OF INCORPORATION:" is_upper, NA));
  ("SIC",                      (labeled "STANDARD INDUSTRIAL CLASSIFICATION:" not_bracket, NA));
  ("ORGANIZATION_NAME",        (labeled "ORGANIZATION NAME:" is_dot, NA));
  ("FISCAL_YEAR_END",          (labeled "FISCAL YEAR END:" is_digit, NA));
  ("BUSINESS_ADRESS_STREET_1", (labeled "STREET 1:" is_dot, NA));
  ("BUSINESS_ADRESS_STREET_2", (labeled "STREET 2:" is_dot, NA));
  ("BUSINESS_ADRESS_CITY",     (labeled "CITY:" is_letter, NA));
  ("BUSINESS_ADRESS_STATE",    (labeled "STATE:" is_upper, NA));
  ("BUSINESS_ADRESS_ZIP",      (labeled "ZIP:" is_digit, NA));
  ("BUSINESS_PHONE",           (labeled "BUSINESS PHONE:" is_digit, NA));
  ("MAIL_ADRESS_STREET_1",     (labeled "STREET 1:" is_dot, NA));
  ("MAIL_ADRESS_STREET_2",     (labeled "STREET 2:" is_dot, NA));
  ("MAIL_ADRESS_CITY",         (labeled "CITY:" is_letter, NA));
  ("MAIL_ADRESS_STATE",        (labeled "STATE:" is_upper, NA));
  ("MAIL_ADRESS_ZIP",          (labeled "ZIP:" is_digit, NA));
  ("FORMER_COMPANY_NAME",      (labeled "FORMER CONFORMED NAME:" is_dot, NA));
  ("DATE_OF_NAME_CHANGE",      (labeled "DATE OF NAME CHANGE:" is_digit, NA))
].

(** [ACCESSION NUMBER:\s+(\d+-\d+-\d+)] *)
Definition accession_number_pattern : pattern :=
  [Lit (L "ACCESSION NUMBER:"); plus is_space; GOpen;
   plus is_digit; Lit (L "-"); plus is_digit; Lit (L "-"); plus is_digit; GClose].

(** [CONFORMED SUBMISSION TYPE:\s+([\w-]+)] *)
Definition submission_type_pattern : pattern :=
  labeled "CONFORMED SUBMISSION TYPE:" is_word_or_hyphen.

(** [CONFORMED PERIOD OF REPORT:\s+(\d+)] *)
Definition period_pattern : pattern := labeled "CONFORMED PERIOD OF REPORT:" is_digit.

(** The patterns of [parse_accession_info]. *)
Definition accession_patterns : table := [
  ("CIK",              ([Lit (L "CENTRAL INDEX KEY:"); plus is_space; GOpen;
                         exactly 10 is_digit; GClose], NA));
  ("ACCESSION_NUMBER", (accession_number_pattern, NA));
  ("DOC_TYPE",         (submission_type_pattern, NA));
  ("FORM_TYPE",        ([Lit (L "<type>"); GOpen; plus is_word_or_hyphen; GClose;
                         Lit (L "</type>")], NA));
  ("CONFORMED_DATE",   (period_pattern, NA));
  ("FILED_DATE",       (labeled "FILED AS OF DATE:" is_digit, NA));
  ("EFFECTIVENESS_DATE", (labeled "EFFECTIVENESS DATE:" is_digit, NA));
  ("PUBLIC_DOCUMENT_COUNT", (labeled "PUBLIC DOCUMENT COUNT:" is_digit, NA));
  ("SEC_ACT",          (labeled "SEC ACT:" is_dot, NA));
  ("SEC_FILE_NUMBER",  (labeled "SEC FILE NUMBER:" is_dot, NA));
  ("FILM_NUMBER",      (labeled "FILM NUMBER:" is_digit, NA))
].

(** One iteration of the extraction loop:
    [match.group(1).strip() if match else default], with the default
    also taken when the group is [None] ([AttributeError]). *)
Definition field_value (p : pattern) (default : cell) (content : str) : cell :=
  match search p content with
  | Some m =>
      match m_group1 m with
      | Some t => Str (strip t)
      | None => default
      end
  | None => default
  end.

(** The loop [for field, (pattern, default) in patterns.items()] filling
    the dict [info]. *)
Definition extract (patterns : table) (content : str) : row :=
  fold_left
    (fun info '(field, (p, default)) => <[field := field_value p default content]> info)
    patterns ∅.

Section External.

(** [pd.to_datetime(series, format='%Y%m%d', errors='coerce')], cell by
    cell. *)
Variable to_datetime : cell -> cell.

(** [BaseFilingParser.parse_company_info] *)
Definition parse_company_info (content : str) : frame :=
  let info := extract company_patterns content in
  let cik_info_df := Frame (map fst company_patterns) [info] in
  let cik_info_df := map_column "DATE" to_datetime cik_info_df in
  let cik_info_df := map_column "DATE_OF_NAME_CHANGE" to_datetime cik_info_df in
  cik_info_df.

(** [df[col] = f(df[col])] for a series-wise [f], guarded by
    [if col in df.columns]. *)
Definition update_column (col : string) (f : list cell -> list cell) (df : frame) : frame :=
  if has_column col df
  then set_column col (f (map (get col) (rows df))) df
  else df.

(** [BaseFilingParser.parse_accession_info] *)
Definition parse_accession_info (content : str) : frame :=
  let info := extract accession_patterns content in
  let accession_info_df := Frame (map fst accession_patterns) [info] in
  (* Safely convert date columns *)
  let accession_info_df :=
    fold_left (fun df col => update_column col (map to_datetime) df)
              ["CONFORMED_DATE"; "FILED_DATE"; "EFFECTIVENESS_DATE"]%string
              accession_info_df in
  (* Safely convert numeric columns *)
  let accession_info_df :=
    update_column "ACCESSION_NUMBER"
      (fun vs => astype_float_ignore (map str_remove_hyphens vs)) accession_info_df in
  let accession_info_df :=
    update_column "CIK" astype_float_ignore accession_info_df in
  accession_info_df.

End External.

(** [BaseFilingParser.get_form_type] *)
Definition get_form_type (content : str) : str :=
  match search submission_type_pattern content with
  | Some m =>
      match m_group1 m with
      | Some t => strip t
      | None => []
      end
  | None => []
  end.

End BaseFilingParser.

(* ===================================================================== *)
(** * The holdings table ([parse_holdings] of both parsers)               *)
(* ===================================================================== *)

Module Holdings.
Import Py PyNum Pandas ET DataOrganizer.

(** The namespace bound to the prefix [ns1]. *)
Definition ns1 : str :=
  L "http://www.sec.gov/edgar/document/thirteenf/informationtable".

Definition q (name : string) : qname := (ns1, L name).

(** [e.find(path).text if e.find(path) is not None else pd.NA] *)
Definition text_of (found : option element) : text :=
  match found with
  | Some el =>
      match ET.text el with
      | Some s => Txt s
      | None => TNone
      end
  | None => TNA
  end.

(** The dict [data] built for one [infoTable] element, before the
    numeric columns are converted. *)
Record entry := Entry {
  e_accession_number : option str;
  e_conformed_date : option str;
  e_name_of_issuer : text;
  e_title_of_class : text;
  e_cusip : text;
  e_share_value : text;
  e_share_amount : text;
  e_sh_prn : text;
  e_put_call : option text;
  e_discretion : text;
  e_sole : text;
  e_shared : text;
  e_none : text
}.

(** The body of the loop over the [infoTable] elements; [put_call] says
    whether the parser reads the [putCall] element. *)
Definition entry_of (put_call : bool) (accession_number conformed_date : option str)
    (info_table : element) : entry :=
  {| e_accession_number := accession_number;
     e_conformed_date := conformed_date;
     e_name_of_issuer := text_of (find (q "nameOfIssuer") info_table);
     e_title_of_class := text_of (find (q "titleOfClass") info_table);
     e_cusip := text_of (find (q "cusip") info_table);
     e_share_value := text_of (find (q "value") info_table);
     e_share_amount := text_of (find2 (q "shrsOrPrnAmt") (q "sshPrnamt") info_table);
     e_sh_prn := text_of (find2 (q "shrsOrPrnAmt") (q "sshPrnamtType") info_table);
     e_put_call := if put_call then Some (text_of (find (q "putCall") info_table))
                   else None;
     e_discretion := text_of (find (q "investmentDiscretion") info_table);
     e_sole := text_of (find2 (q "votingAuthority") (q "Sole") info_table);
     e_shared := text_of (find2 (q "votingAuthority") (q "Shared") info_table);
     e_none := text_of (find2 (q "votingAuthority") (q "None") info_table) |}.

(** [series.astype(str)] on one cell. *)
Definition astype_str (t : text) : str :=
  match t with
  | Txt s => s
  | TNone => L "None"
  | TNA => L "<NA>"
  end.

(** [series.str.replace(r'\s+', '', regex=True)] on one cell. *)
Definition remove_whitespace (s : str) : str :=
  List.filter (fun c => negb (is_space c)) s.

(** [series.replace('', '0')] on one cell. *)
Definition replace_empty (s : str) : str :=
  match s with
  | [] => L "0"
  | _ => s
  end.

Definition int64_min : Z := (- 2 ^ 63)%Z.
Definition int64_max : Z := (2 ^ 63 - 1)%Z.

(** One float of a float column cast to [Int64]: NaN becomes [<NA>], an
    integral value in range is kept, anything else is not a safe cast. *)
Definition to_int64 (f : fval) : outcome (option Z) :=
  match f with
  | FNaN => Returns None
  | Fin x =>
      if is_integral x && Z.leb int64_min (Qtrunc x) && Z.leb (Qtrunc x) int64_max
      then Returns (Some (Qtrunc x))
      else Raises TypeError
  | FInf _ => Raises TypeError
  end.

Fixpoint all_returned {A} (l : list (outcome A)) : outcome (list A) :=
  match l with
  | [] => Returns []
  | o :: l' =>
      let* a := o in
      let* r := all_returned l' in
      Returns (a :: r)
  end.

(** The conversion chain applied to one numeric column:
    [.astype(str).str.replace(r'\s+', '', regex=True).replace('', '0')
     .astype(float, errors='ignore').astype(pd.Int64Dtype())].
    When some cell is not a number, [astype(float, errors='ignore')]
    leaves the strings in place and the cast to [Int64] raises. *)
Definition convert_column (vs : list text) : outcome (list (option Z)) :=
  let strs := map (fun t => replace_empty (remove_whitespace (astype_str t))) vs in
  match all_some (map py_float strs) with
  | Some floats => all_returned (map to_int64 floats)
  | None => Raises ValueError
  end.

(** The frame rebuilt from the entries and the five converted columns. *)
Fixpoint assemble (es : list entry) (c1 c2 c3 c4 c5 : list (option Z)) : holdings_frame :=
  match es, c1, c2, c3, c4, c5 with
  | e :: es', x1 :: c1', x2 :: c2', x3 :: c3', x4 :: c4', x5 :: c5' =>
      {| ACCESSION_NUMBER := e_accession_number e;
         CONFORMED_DATE := e_conformed_date e;
         NAME_OF_ISSUER := e_name_of_issuer e;
         TITLE_OF_CLASS := e_title_of_class e;
         CUSIP := e_cusip e;
         SHARE_VALUE := x1;
         SHARE_AMOUNT := x2;
         SH_PRN := e_sh_prn e;
         PUT_CALL := e_put_call e;
         DISCRETION := e_discretion e;
         SOLE_VOTING_AUTHORITY := x3;
         SHARED_VOTING_AUTHORITY := x4;
         NONE_VOTING_AUTHORITY := x5 |} :: assemble es' c1' c2' c3' c4' c5'
  | _, _, _, _, _, _ => []
  end.

(** The loop over [columns_to_convert]. *)
Definition convert_numeric_columns (es : list entry) : outcome holdings_frame :=
  let* c1 := convert_column (map e_share_value es) in
  let* c2 := convert_column (map e_share_amount es) in
  let* c3 := convert_column (map e_sole es) in
  let* c4 := convert_column (map e_shared es) in
  let* c5 := convert_column (map e_none es) in
  Returns (assemble es c1 c2 c3 c4 c5).

(** [parse_holdings] from the point where [ET.fromstring] has returned
    ([None]: it raised).  Any exception gives [pd.DataFrame()]. *)
Definition holdings_of_root (put_call : bool) (root : option element)
    (accession_number conformed_date : option str) : holdings_frame :=
  match root with
  | None => []
  | Some root =>
      let parsed_data :=
        map (entry_of put_call accession_number conformed_date)
            (findall_descendants (q "infoTable") root) in
      match convert_numeric_columns parsed_data with
      | Returns df => df
      | Raises _ => []
      end
  end.

End Holdings.

(* ===================================================================== *)
(** * Locating the holdings fragment ([extract_xml] of both parsers)      *)
(* ===================================================================== *)

Module Fragment.
Import Py Re BaseFilingParser.

(** [<XML>] and [</XML>] *)
Definition xml_open : pattern := [Lit (L "<XML>")].
Definition xml_close : pattern := [Lit (L "</XML>")].

(** [\n<\?xml.*?\?>] *)
Definition xml_prolog : pattern :=
  [Lit (newline :: L "<?xml"); star_lazy is_dot; Lit (L "?>")].

(** [m.group(1) if m else None] *)
Definition group1 (m : option mobj) : option str :=
  match m with
  | Some m => m_group1 m
  | None => None
  end.

(** The pairs [list(zip(xml_start_tags, xml_end_tags))]. *)
Definition xml_indices (content : str) : list (nat * nat) :=
  let xml_start_tags := map m_start (finditer xml_open content) in
  let xml_end_tags := map m_start (finditer xml_close content) in
  combine xml_start_tags xml_end_tags.

(** The section taken when [xml_indices] is not empty: the second one if
    there are at least two, else the first; cut out of the content and
    cleaned of XML declarations. *)
Definition tagged_section (content : str) : option str :=
  match xml_indices content with
  | [] => None
  | first :: others =>
      let '(start_index, end_index) :=
        match others with
        | second :: _ => second
        | [] => first
        end in
      let xml_content := slice content start_index (end_index + length (L "</XML>")) in
      Some (sub_empty xml_prolog xml_content)
  end.

End Fragment.

(* ===================================================================== *)
(** * core/parser.py                                                      *)
(* ===================================================================== *)

Module SECFilingParser.
Import Py Re Pandas ET DataOrganizer BaseFilingParser Fragment.

(** One entry of the dict literals of this parser:
    [re.search(p, content).group(1) if re.search(p, content) else pd.NA],
    with [.strip()] on the fields that have it. *)
Definition searched (p : pattern) (with_strip : bool) (content : str) : cell :=
  match search p content with
  | Some m =>
      match m_group1 m with
      | Some t => Str (if with_strip then strip t else t)
      | None => NA
      end
  | None => NA
  end.

(** [tag>(\d+)</] *)
Definition tag_digits (tag : string) : pattern :=
  [Lit (L tag ++ L ">"); GOpen; plus is_digit; GClose; Lit (L "</")].

(** [tag>(.+)</] *)
Definition tag_any (tag : string) : pattern :=
  [Lit (L tag ++ L ">"); GOpen; plus is_dot; GClose; Lit (L "</")].

(** [tag>(a|b)</] *)
Definition tag_choice (tag : string) (a b : string) : pattern :=
  [Lit (L tag ++ L ">"); GOpen; Alt [L a; L b]; GClose; Lit (L "</")].

(** [<title>(.+?)</title>] *)
Definition title_pattern : pattern :=
  [Lit (L "<title>"); GOpen; plus_lazy is_dot; GClose; Lit (L "</title>")].

(** [<phone>([\d\-\(\)\s]+)</phone>] *)
Definition is_phone_char (c : ascii) : bool :=
  is_digit c || is_char "-"%char c || is_char "("%char c || is_char ")"%char c
  || is_space c.

Definition phone_pattern : pattern :=
  [Lit (L "<phone>"); GOpen; plus is_phone_char; GClose; Lit (L "</phone>")].

(** [<signatureBlock>\s*<name>(.+?)</name>] *)
Definition signature_name_pattern : pattern :=
  [Lit (L "<signatureBlock>"); star is_space; Lit (L "<name>"); GOpen;
   plus_lazy is_dot; GClose; Lit (L "</name>")].

(** The fields of [parse_company_info]: pattern and whether the group is
    stripped. *)
Definition company_fields : list (string * (pattern * bool)) := [
  ("CIK",                      (labeled "CENTRAL INDEX KEY:" is_digit, false));
  ("IRS_NUMBER",               (labeled "IRS NUMBER:" is_digit, false));
  ("COMPANY_CONFORMED_NAME",   (labeled "COMPANY CONFORMED NAME:" is_dot, true));
  ("DATE",                     (labeled "DATE AS OF CHANGE:" is_digit, false));
  ("STATE_INC",                (labeled "STATE OF INCORPORATION:" is_upper, false));
  ("SIC",                      (labeled "STANDARD INDUSTRIAL CLASSIFICATION:" not_bracket, true));
  ("ORGANIZATION_NAME",        (labeled "ORGANIZATION NAME:" is_dot, true));
  ("FISCAL_YEAR_END",          (labeled "FISCAL YEAR END:" is_digit, false));
  ("BUSINESS_ADRESS_STREET_1", (labeled "STREET 1:" is_dot, true));
  ("BUSINESS_ADRESS_STREET_2", (labeled "STREET 2:" is_dot, true));
  ("BUSINESS_ADRESS_CITY",     (labeled "CITY:" is_letter, false));
  ("BUSINESS_ADRESS_STATE",    (labeled "STATE:" is_upper, false));
  ("BUSINESS_ADRESS_ZIP",      (labeled "ZIP:" is_digit, false));
  ("BUSINESS_PHONE",           (labeled "BUSINESS PHONE:" is_digit, false));
  ("MAIL_ADRESS_STREET_1",     (labeled "STREET 1:" is_dot, true));
  ("MAIL_ADRESS_STREET_2",     (labeled "STREET 2:" is_dot, true));
  ("MAIL_ADRESS_CITY",         (labeled "CITY:" is_letter, false));
  ("MAIL_ADRESS_STATE",        (labeled "STATE:" is_upper, false));
  ("MAIL_ADRESS_ZIP",          (labeled "ZIP:" is_digit, false));
  ("FORMER_COMPANY_NAME",      (labeled "FORMER CONFORMED NAME:" is_dot, true));
  ("DATE_OF_NAME_CHANGE",      (labeled "DATE OF NAME CHANGE:" is_digit, false))
].

(** The fields of [parse_accession_info]. *)
Definition accession_fields : list (string * (pattern * bool)) := [
  ("CIK",              ([Lit (L "CENTRAL INDEX KEY:"); plus is_space; GOpen;
                         exactly 10 is_digit; GClose], false));
  ("ACCESSION_NUMBER", (accession_number_pattern, false));
  ("DOC_TYPE",         (submission_type_pattern, false));
  ("FORM_TYPE",        ([Lit (L "<type>"); GOpen; plus is_word_or_hyphen; GClose;
                         Lit (L "</type>")], false));
  ("CONFORMED_DATE",   (period_pattern, false));
  ("FILED_DATE",       (labeled "FILED AS OF DATE:" is_digit, false));
  ("EFFECTIVENESS_DATE", (labeled "EFFECTIVENESS DATE:" is_digit, false));
  ("PUBLIC_DOCUMENT_COUNT", (labeled "PUBLIC DOCUMENT COUNT:" is_digit, false));
  ("SEC_ACT",          (labeled "SEC ACT:" is_dot, true));
  ("SEC_FILE_NUMBER",  (labeled "SEC FILE NUMBER:" is_dot, true));
  ("FILM_NUMBER",      (labeled "FILM NUMBER:" is_digit, false));
  ("NUMBER_TRADES",    (tag_digits "tableEntryTotal", false));
  ("TOTAL_VALUE",      (tag_digits "tableValueTotal", false));
  ("OTHER_INCLUDED_MANAGERS_COUNT", (tag_digits "otherIncludedManagersCount", false));
  ("IS_CONFIDENTIAL_OMITTED", (tag_choice "isConfidentialOmitted" "true" "false", false));
  ("REPORT_TYPE",      (tag_any "reportType", false));
  ("FORM_13F_FILE_NUMBER", (tag_any "form13FFileNumber", false));
  ("PROVIDE_INFO_FOR_INSTRUCTION5", (tag_choice "provideInfoForInstruction5" "Y" "N", false));
  ("SIGNATURE_NAME",   (signature_name_pattern, true));
  ("SIGNATURE_TITLE",  (title_pattern, true));
  ("SIGNATURE_PHONE",  (phone_pattern, true))
].

(** The dict literal [info = {field: ..., ...}]. *)
Definition dict_of (fields : list (string * (pattern * bool))) (content : str) : row :=
  fold_left
    (fun info '(field, (p, with_strip)) => <[field := searched p with_strip content]> info)
    fields ∅.

Section External.

Variable to_datetime : cell -> cell.
Variable fromstring : str -> option element.
Variable read_csv : csv -> frame.

(** [SECFilingParser.parse_company_info] *)
Definition parse_company_info (content : str) : frame :=
  let info := dict_of company_fields content in
  let cik_info_df := Frame (map fst company_fields) [info] in
  let cik_info_df := map_column "DATE" to_datetime cik_info_df in
  let cik_info_df := map_column "DATE_OF_NAME_CHANGE" to_datetime cik_info_df in
  cik_info_df.

(** [SECFilingParser.parse_accession_info] *)
Definition parse_accession_info (content : str) : frame :=
  let info := dict_of accession_fields content in
  let df := Frame (map fst accession_fields) [info] in
  let df := map_column "CONFORMED_DATE" to_datetime df in
  let df := map_column "FILED_DATE" to_datetime df in
  let df := map_column "EFFECTIVENESS_DATE" to_datetime df in
  let df := set_column "ACCESSION_NUMBER"
              (astype_float_ignore
                 (map (fun r => str_remove_hyphens (get "ACCESSION_NUMBER" r)) (rows df))) df in
  let df := set_column "CIK"
              (astype_float_ignore (map (get "CIK") (rows df))) df in
  let df := map_column "IS_CONFIDENTIAL_OMITTED" map_true_false df in
  df.

(** [SECFilingParser.extract_xml] *)
Definition extract_xml (content : str) : option str * option str * option str :=
  (* Extract accession number *)
  let accession_number := group1 (search accession_number_pattern content) in
  (* Extract conformed date *)
  let conformed_date := group1 (search period_pattern content) in
  (tagged_section content, accession_number, conformed_date).

(** [SECFilingParser.parse_holdings] *)
Definition parse_holdings (xml_data : str) (accession_number conformed_date : option str)
    : holdings_frame :=
  Holdings.holdings_of_root false (fromstring xml_data) accession_number conformed_date.

(** The truth value of an [Optional[str]]. *)
Definition truthy (x : option str) : bool :=
  match x with
  | Some (_ :: _) => true
  | _ => false
  end.

(** [SECFilingParser.process_filing] *)
Definition process_filing (content : str) (s : sink) : outcome unit * sink :=
  (* Parse company information *)
  let company_info_df := parse_company_info content in
  (* Parse accession information *)
  let accession_info_df := parse_accession_info content in
  (* Extract and parse XML data *)
  let '(xml_data, accession_number, conformed_date) := extract_xml content in
  match xml_data with
  | Some (c :: x) =>
      (* Parse holdings information *)
      let holdings_df := parse_holdings (c :: x) accession_number conformed_date in
      (* Save all parsed data *)
      process_filing_data read_csv accession_info_df company_info_df holdings_df s
  | _ => (Returns tt, s)
  end.

End External.

End SECFilingParser.

(* ===================================================================== *)
(** * parsers/form_13f_parser.py                                          *)
(* ===================================================================== *)

Module Form13FParser.
Import Py Re Pandas ET DataOrganizer BaseFilingParser Fragment.

(** The 13F-specific patterns of [parse_accession_info]. *)
Definition form_13f_patterns : table := [
  ("NUMBER_TRADES",    (SECFilingParser.tag_digits "tableEntryTotal", NA));
  ("TOTAL_VALUE",      (SECFilingParser.tag_digits "tableValueTotal", NA));
  ("OTHER_INCLUDED_MANAGERS_COUNT",
                       (SECFilingParser.tag_digits "otherIncludedManagersCount", NA));
  ("IS_CONFIDENTIAL_OMITTED",
                       (SECFilingParser.tag_choice "isConfidentialOmitted" "true" "false", NA));
  ("REPORT_TYPE",      (SECFilingParser.tag_any "reportType", NA));
  ("FORM_13F_FILE_NUMBER", (SECFilingParser.tag_any "form13FFileNumber", NA));
  ("PROVIDE_INFO_FOR_INSTRUCTION5",
                       (SECFilingParser.tag_choice "provideInfoForInstruction5" "Y" "N", NA));
  ("SIGNATURE_NAME",   ([Lit (L "<signatureBlock>"); star is_space; Lit (L "<n>"); GOpen;
                         plus_lazy is_dot; GClose; Lit (L "</n>")], NA));
  ("SIGNATURE_TITLE",  (SECFilingParser.title_pattern, NA));
  ("SIGNATURE_PHONE",  (SECFilingParser.phone_pattern, NA))
].

(** [<\?xml[^>]+\?>] *)
Definition xml_declaration : pattern :=
  [Lit (L "<?xml"); plus (not_char ">"%char); Lit (L "?>")].

(** [<[^?][^>]*>] *)
Definition opening_tag : pattern :=
  [Lit (L "<"); Rep (not_char "?"%char) 1 (Some 1) true; star (not_char ">"%char);
   Lit (L ">")].

(** [<informationTable[^>]*>.*?</informationTable>] under
    [re.DOTALL | re.IGNORECASE] *)
Definition information_table : pattern :=
  [LitI (L "<informationTable"); star (not_char ">"%char); Lit (L ">");
   star_lazy (fun _ => true); LitI (L "</informationTable>")].

(** [m.group(0)] for a match found in [s]. *)
Definition group0 (s : str) (m : mobj) : str := slice s (m_start m) (m_end m).

Definition is_angle (c : ascii) : bool := is_char "<"%char c || is_char ">"%char c.

(** Method 2 of [extract_xml]: the text from the XML declaration to the
    last closing tag of the first element after it.  [Raises] stands for
    the [IndexError] of [split()[0]] on a tag without a name. *)
Definition after_declaration (content : str) : outcome (option str) :=
  match search xml_declaration content with
  | None => Returns None
  | Some xml_decl_match =>
      let start_index := m_start xml_decl_match in
      let tail := slice_from content start_index in
      (* Find the first opening tag after the XML declaration *)
      match search opening_tag tail with
      | None => Returns None
      | Some opening_tag_match =>
          match first_word (strip_with is_angle (group0 tail opening_tag_match)) with
          | None => Raises IndexError
          | Some tag_name =>
              (* Find the corresponding closing tag *)
              let closing_tag := L "</" ++ tag_name ++ L ">" in
              match rfind closing_tag content start_index with
              | Some closing_tag_index =>
                  if Nat.ltb start_index closing_tag_index
                  then Returns (Some (slice content start_index
                                        (closing_tag_index + length closing_tag)))
                  else Returns None
              | None => Returns None
              end
          end
      end
  end.

(** Method 3 of [extract_xml]: an [informationTable] element wrapped in
    [<XML>] tags. *)
Definition wrapped_information_table (content : str) : option str :=
  match search information_table content with
  | Some info_table_match =>
      Some (L "<XML>" ++ group0 content info_table_match ++ L "</XML>")
  | None => None
  end.

(** [Form13FParser.extract_xml] *)
Definition extract_xml (content : str) : option str * option str * option str :=
  (* Extract accession number *)
  let accession_number := group1 (search accession_number_pattern content) in
  (* Extract conformed date *)
  let conformed_date := group1 (search period_pattern content) in
  (* Method 1: Find XML between <XML> tags *)
  match tagged_section content with
  | Some xml_content => (Some xml_content, accession_number, conformed_date)
  | None =>
      (* Method 2: Find XML after an XML declaration *)
      match after_declaration content with
      | Raises _ => (None, None, None)
      | Returns (Some xml_content) => (Some xml_content, accession_number, conformed_date)
      | Returns None =>
          (* Method 3: Look for common 13F XML elements *)
          match wrapped_information_table content with
          | Some xml_content => (Some xml_content, accession_number, conformed_date)
          | None => (None, accession_number, conformed_date)
          end
      end
  end.

Section External.

Variable to_datetime : cell -> cell.
Variable fromstring : str -> option element.
Variable read_csv : csv -> frame.

(** [Form13FParser.parse_accession_info] *)
Definition parse_accession_info (content : str) : frame :=
  (* Get the base accession info *)
  let accession_info_df := BaseFilingParser.parse_accession_info to_datetime content in
  (* Extract 13F-specific data *)
  let info := extract form_13f_patterns content in
  let form_13f_df := Frame (map fst form_13f_patterns) [info] in
  (* Convert boolean column *)
  let form_13f_df :=
    if has_column "IS_CONFIDENTIAL_OMITTED" form_13f_df
    then map_column "IS_CONFIDENTIAL_OMITTED" map_true_false form_13f_df
    else form_13f_df in
  (* Combine with base accession info *)
  fold_left
    (fun df col =>
       match rows form_13f_df with
       | r :: _ => set_scalar col (get col r) df
       | [] => df
       end)
    (columns form_13f_df) accession_info_df.

(** [Form13FParser.parse_holdings] *)
Definition parse_holdings (xml_data : str) (accession_number conformed_date : option str)
    : holdings_frame :=
  Holdings.holdings_of_root true (fromstring xml_data) accession_number conformed_date.

(** [Form13FParser.process_filing]; the final [except] discards any
    exception, keeping what was written before it. *)
Definition process_filing (content : str) (s : sink) : sink :=
  (* Parse company information *)
  let company_info_df := BaseFilingParser.parse_company_info to_datetime content in
  (* Parse accession information *)
  let accession_info_df := parse_accession_info content in
  (* Extract and parse XML data *)
  let '(xml_data, accession_number, conformed_date) := extract_xml content in
  (* Initialize an empty holdings DataFrame as default *)
  let holdings_df :=
    match xml_data with
    | Some (c :: x) => parse_holdings (c :: x) accession_number conformed_date
    | _ => []
    end in
  (* Validate data before saving *)
  if negb (is_empty accession_info_df) && has_column "ACCESSION_NUMBER" accession_info_df
  then snd (process_filing_data read_csv accession_info_df company_info_df holdings_df s)
  else s.

End External.

End Form13FParser.

(* ===================================================================== *)
(** * core/downloader.py: the form index                                  *)
(* ===================================================================== *)

Module SECDownloader.
Import Py.

(** The characters at which [str.splitlines] breaks a line (ASCII):
    LF, VT, FF, CR, FS, GS, RS. *)
Definition is_linebreak (c : ascii) : bool :=
  in_range 10 13 c || in_range 28 30 c.

Definition carriage_return : ascii := ascii_of_nat 13.

(** [text.splitlines()]: [cur] holds the current line reversed,
    [after_cr] says that the previous character was a carriage return
    (a line feed right after it belongs to the same line break). *)
Fixpoint splitlines_aux (s : str) (cur : str) (after_cr : bool) : list str :=
  match s with
  | [] => match cur with [] => [] | _ => [rev cur] end
  | c :: s' =>
      if after_cr && Ascii.eqb c newline then splitlines_aux s' [] false
      else if is_linebreak c
           then rev cur :: splitlines_aux s' [] (Ascii.eqb c carriage_return)
           else splitlines_aux s' (c :: cur) false
  end.

Definition splitlines (s : str) : list str := splitlines_aux s [] false.

(** The HTTP response to the request for a quarter's [form.idx]. *)
Record response := Response {
  status_code : nat;
  text : str
}.

(** One entry of the index ([Form Type], [Name], [CIK], [Date Filed],
    [Filename]). *)
Record index_entry := IndexEntry {
  form_type : str;
  name : str;
  cik : str;
  date_filed : str;
  filename : str
}.

(** [set(line.strip()) == {'-'}] *)
Definition is_separator (line : str) : bool :=
  match strip line with
  | [] => false
  | t => forallb (is_char "-"%char) t
  end.

(** [next(i for i, line in enumerate(lines) if ...)] ([None]:
    [StopIteration]). *)
Fixpoint first_index (p : str -> bool) (lines : list str) (i : nat) : option nat :=
  match lines with
  | [] => None
  | line :: lines' => if p line then Some i else first_index p lines' (S i)
  end.

(** The dict built from one line after the separator. *)
Definition entry_of_line (line : str) : index_entry :=
  {| form_type := strip (slice line 0 12);
     name := strip (slice line 12 74);
     cik := strip (slice line 74 86);
     date_filed := strip (slice line 86 98);
     filename := strip (slice_from line 98) |}.

(** [SECDownloader._parse_form_idx], from the response on; the result is
    the list of the frame's rows ([pd.DataFrame()] is the empty list). *)
Definition _parse_form_idx (r : response) : list index_entry :=
  if negb (Nat.eqb (status_code r) 200) then []
  else
    let lines := splitlines (text r) in
    match first_index is_separator lines 0 with
    | None => []
    | Some start_idx => map entry_of_line (skipn (start_idx + 1) lines)
    end.

End SECDownloader.

(* ===================================================================== *)
(** * Predicates and sample inputs used to state the properties           *)
(* ===================================================================== *)

Module BucketSpec.
Import RateLimiter.
Local Open Scope Q_scope.





(** A clock that advances by a tenth of a second between readings. *)
Definition tick (_ : nat) : Q := 1 # 10.


Definition sample_bucket : bucket :=
  {| rate := 7; capacity := 7; tokens := 7; last_refill_time := 0 |}.

End BucketSpec.

Module HeaderSpec.
Import Py Re Pandas.

(** The entry a table holds for a field (the last one, as in a dict). *)
Fixpoint table_entry {V} (field : string) (t : list (string * V)) : option V :=
  match t with
  | [] => None
  | (k, v) :: t' =>
      match table_entry field t' with
      | Some v' => Some v'
      | None => if String.eqb k field then Some v else None
      end
  end.

(** The two columns that go through [pd.to_datetime]. *)
Definition is_date_field (field : string) : bool :=
  String.eqb field "DATE" || String.eqb field "DATE_OF_NAME_CHANGE".

(** [astype(float, errors='ignore')] on a one-row column. *)
Definition astype_float_ignore1 (c : cell) : cell :=
  match float_of_cell c with
  | Some f => Float f
  | None => c
  end.

(** The single row [parse_company_info] returns. *)
Definition finish_company (to_datetime : cell -> cell) (info : gmap string cell)
    : gmap string cell :=
  let r1 := <["DATE" := to_datetime (get "DATE" info)]> info in
  <["DATE_OF_NAME_CHANGE" := to_datetime (get "DATE_OF_NAME_CHANGE" r1)]> r1.

(** What [finish_company] leaves in a column. *)
Definition finished (to_datetime : cell -> cell) (field : string) (v : cell) : cell :=
  if is_date_field field then to_datetime v else v.


(** The single row [BaseFilingParser.parse_accession_info] returns. *)
Definition finish_accession (to_datetime : cell -> cell) (info : gmap string cell)
    : gmap string cell :=
  let r1 := <["CONFORMED_DATE" := to_datetime (get "CONFORMED_DATE" info)]> info in
  let r2 := <["FILED_DATE" := to_datetime (get "FILED_DATE" r1)]> r1 in
  let r3 := <["EFFECTIVENESS_DATE" := to_datetime (get "EFFECTIVENESS_DATE" r2)]> r2 in
  let r4 := <["ACCESSION_NUMBER" :=
               astype_float_ignore1 (str_remove_hyphens (get "ACCESSION_NUMBER" r3))]> r3 in
  <["CIK" := astype_float_ignore1 (get "CIK" r4)]> r4.

(** The number a string of decimal digits denotes. *)
Definition decimal_value (ds : str) : Z :=
  fold_left (fun acc c => (acc * 10 + PyNum.digit_value c)%Z) ds 0%Z.

(** The mail address columns repeat the business address columns. *)
Definition same_address (r : gmap string cell) : Prop :=
  get "MAIL_ADRESS_STREET_1" r = get "BUSINESS_ADRESS_STREET_1" r /\
  get "MAIL_ADRESS_STREET_2" r = get "BUSINESS_ADRESS_STREET_2" r /\
  get "MAIL_ADRESS_CITY" r = get "BUSINESS_ADRESS_CITY" r /\
  get "MAIL_ADRESS_STATE" r = get "BUSINESS_ADRESS_STATE" r /\
  get "MAIL_ADRESS_ZIP" r = get "BUSINESS_ADRESS_ZIP" r.

(** A reader of [YYYYMMDD] dates for the examples: eight digits give a
    timestamp, anything else is missing. *)
Definition eight_digit_dates (c : cell) : cell :=
  match c with
  | Str s =>
      if Nat.eqb (length s) 8 && forallb is_digit s then Timestamp s else NA
  | _ => NA
  end.

(** The label of the entity identifier. *)
Definition cik_label : str := L "CENTRAL INDEX KEY:".

(** A header without a [STATE OF INCORPORATION] line. *)
Definition header_without_state : str := L "
CENTRAL INDEX KEY:          0001234567
COMPANY CONFORMED NAME:     TEST COMPANY INC
FISCAL YEAR END:            1231
".

(** A header whose [CENTRAL INDEX KEY] has eleven digits. *)
Definition header_long_cik : str := L "
CENTRAL INDEX KEY:          12345678901
COMPANY CONFORMED NAME:     TEST COMPANY INC
".

(** A header whose [CENTRAL INDEX KEY] has seven digits. *)
Definition header_short_cik : str := L "
CENTRAL INDEX KEY:          1234567
COMPANY CONFORMED NAME:     TEST COMPANY INC
".

End HeaderSpec.

Module IndexSpec.
Import Py SECDownloader.

(** A text made of the given lines, each ended by a line feed. *)
Definition unlines (ls : list str) : str :=
  flat_map (fun l => l ++ [newline]) ls.

(** A line holds no line-breaking character. *)
Definition no_breaks (l : str) : bool := forallb (fun c => negb (is_linebreak c)) l.

(** The columns of one index line, by offset. *)
Definition sliced (line : str) (e : index_entry) : Prop :=
  form_type e = strip (slice line 0 12) /\
  name e = strip (slice line 12 74) /\
  cik e = strip (slice line 74 86) /\
  date_filed e = strip (slice line 86 98) /\
  filename e = strip (slice_from line 98).

(** A synthetic index: two lines of heading, the separator and two data
    lines. *)
Definition sample_index : str := L "Form Type   Company Name                                                  CIK         Date Filed  File Name
---------------------------------------------------------------------------------------------------------------
13F-HR      TEST COMPANY INC                                              1234567     2024-02-15  edgar/data/1234567/0000123456-24-000789.txt
13F-HR/A    OTHER FUND LP                                                 7654321     2024-03-01  edgar/data/7654321/0007654321-24-000001.txt
".

Definition sample_index_entries : list index_entry :=
  [ {| form_type := L "13F-HR"; name := L "TEST COMPANY INC"; cik := L "1234567";
       date_filed := L "2024-02-15";
       filename := L "edgar/data/1234567/0000123456-24-000789.txt" |};
    {| form_type := L "13F-HR/A"; name := L "OTHER FUND LP"; cik := L "7654321";
       date_filed := L "2024-03-01";
       filename := L "edgar/data/7654321/0007654321-24-000001.txt" |} ].

End IndexSpec.

Module FragmentSpec.
Import Py Re Fragment.





(** A filing with one [<XML>] section. *)
Definition filing_one_section : str := L "ACCESSION NUMBER:  0000123456-24-000789
<XML>
<informationTable>holdings</informationTable>
</XML>
".

(** A filing without [<XML>] tags that carries its table after an XML
    declaration. *)
Definition filing_untagged : str := L "ACCESSION NUMBER:  0000123456-24-000789
<?xml version='1.0'?>
<informationTable><infoTable><value>1</value></infoTable></informationTable>
".

End FragmentSpec.

Module HoldingsSpec.
Import Py PyNum Pandas ET DataOrganizer Holdings.

(** The conversion chain on one cell of a numeric column. *)
Definition clean (t : text) : str := replace_empty (remove_whitespace (astype_str t)).

Definition convert_cell (t : text) : outcome (option Z) :=
  match py_float (clean t) with
  | Some f => to_int64 f
  | None => Raises ValueError
  end.


(** The entries [parse_holdings] reads from a parsed fragment. *)
Definition entries_of (put_call : bool) (root : element)
    (accession_number conformed_date : option str) : list entry :=
  map (entry_of put_call accession_number conformed_date)
      (findall_descendants (q "infoTable") root).

Definition leaf (name : string) (txt : option str) : element :=
  Element (q name) txt [].

(** An [infoTable] element with the given text in [value]. *)
Definition info_table (value : option str) : element :=
  Element (q "infoTable") None
    [ leaf "nameOfIssuer" (Some (L "APPLE INC"));
      leaf "titleOfClass" (Some (L "COM"));
      leaf "cusip" (Some (L "037833100"));
      leaf "value" value;
      Element (q "shrsOrPrnAmt") None
        [ leaf "sshPrnamt" (Some (L "10 000")); leaf "sshPrnamtType" (Some (L "SH")) ];
      leaf "investmentDiscretion" (Some (L "SOLE"));
      Element (q "votingAuthority") None
        [ leaf "Sole" (Some (L "10000")); leaf "Shared" (Some (L "0"));
          leaf "None" (Some (L "0")) ] ].



End HoldingsSpec.

Module SinkSpec.
Import Py Re PyNum Pandas DataOrganizer.

(** A filing with a header, an accession block and two [<XML>]
    sections. *)
Definition sample_filing : str := L "ACCESSION NUMBER:		0000123456-24-000789
CONFORMED SUBMISSION TYPE:	13F-HR
CONFORMED PERIOD OF REPORT:	20231231
FILED AS OF DATE:		20240215
COMPANY CONFORMED NAME:			TEST COMPANY INC
CENTRAL INDEX KEY:			0001234567
<XML>
<edgarSubmission>cover</edgarSubmission>
</XML>
<XML>
<informationTable>holdings</informationTable>
</XML>
".

(** The same filing without any [<XML>] section. *)
Definition sample_filing_no_xml : str := L "ACCESSION NUMBER:		0000123456-24-000789
CONFORMED SUBMISSION TYPE:	13F-HR
CONFORMED PERIOD OF REPORT:	20231231
FILED AS OF DATE:		20240215
COMPANY CONFORMED NAME:			TEST COMPANY INC
CENTRAL INDEX KEY:			0001234567
".

(** The accession number of the sample filings, as the frame holds it. *)
Definition sample_accession : cell := Float (Fin (inject_Z 12345624000789)).

(** The number of records a CSV file holds for an accession number. *)
Definition count_records (accession_number : cell) (f : option csv) : nat :=
  match f with
  | Some lines => length (records_for accession_number lines)
  | None => 0
  end.

End SinkSpec.

(* ===================================================================== *)
(** * Further code of the package and what its properties need            *)
(* ===================================================================== *)

Module BucketRun.
Import RateLimiter.
Local Open Scope Q_scope.




End BucketRun.

Module HoldingsRows.
Import Py DataOrganizer Holdings.

(** What every row of a holdings frame says about the call that made
    it. *)
Definition row_of_call (put_call : bool) (acc date : option str) (h : holding) : Prop :=
  ACCESSION_NUMBER h = acc /\ CONFORMED_DATE h = date /\
  (if put_call then PUT_CALL h <> None else PUT_CALL h = None).

Definition entry_of_call (put_call : bool) (acc date : option str) (e : entry) : Prop :=
  e_accession_number e = acc /\ e_conformed_date e = date /\
  (if put_call then e_put_call e <> None else e_put_call e = None).

End HoldingsRows.

Module AccessionSpec.
Import Py Re Pandas BaseFilingParser HeaderSpec.

(** The label of the accession number. *)
Definition accession_label : str := L "ACCESSION NUMBER:".

(** The columns and the single row [Form13FParser.parse_accession_info]
    returns. *)
Definition form_13f_columns : list string :=
  map fst accession_patterns ++ map fst Form13FParser.form_13f_patterns.

Definition form_13f_row (to_datetime : cell -> cell) (content : str) : gmap string cell :=
  let base := finish_accession to_datetime (extract accession_patterns content) in
  let info := extract Form13FParser.form_13f_patterns content in
  let info' :=
    <["IS_CONFIDENTIAL_OMITTED" :=
        map_true_false (get "IS_CONFIDENTIAL_OMITTED" info)]> info in
  fold_left (fun r col => <[col := get col info']> r)
            (map fst Form13FParser.form_13f_patterns) base.


(** [isConfidentialOmitted>] *)
Definition confidential_tag : str := L "isConfidentialOmitted>".

(** The boolean read after the tag. *)
Definition confidential_value (tail : str) : cell :=
  match strip_prefix (L "true</") tail with
  | Some _ => Boolean true
  | None =>
      match strip_prefix (L "false</") tail with
      | Some _ => Boolean false
      | None => NA
      end
  end.

End AccessionSpec.

Module BucketClock.
Import RateLimiter.
Local Open Scope Q_scope.

(** The time taken by [n] readings of the clock, from reading number
    [from] on. *)
Fixpoint delay_sum (delays : nat -> Q) (from n : nat) : Q :=
  match n with
  | O => 0
  | S k => delays from + delay_sum delays (S from) k
  end.

End BucketClock.

(* ===================================================================== *)
(** * parsers/parser_factory.py                                           *)
(* ===================================================================== *)

Module ParserFactory.
Import Py Re BaseFilingParser.

(** The class of the parser [create_parser] returns. *)
Inductive parser_class :=
| Form13FParser_class
| BaseFilingParser_class.

(** [s.startswith(l)] and [l in s] *)
Definition startswith (l s : str) : bool :=
  match strip_prefix l s with
  | Some _ => true
  | None => false
  end.

Definition contains (l s : str) : bool :=
  match find_from l s 0 with
  | Some _ => true
  | None => false
  end.

(** [ParserFactory._extract_form_type] (the group takes part in every
    match of the pattern) *)
Definition _extract_form_type (content : str) : option str :=
  match search submission_type_pattern content with
  | Some m =>
      match m_group1 m with
      | Some t => Some (strip t)
      | None => None
      end
  | None => None
  end.

(** [ParserFactory.create_parser(form_type, content)] *)
Definition create_parser (form_type content : option str) : parser_class :=
  (* If form_type is not provided, try to extract it from content *)
  let form_type :=
    match form_type, content with
    | None, Some content => _extract_form_type content
    | _, _ => form_type
    end in
  (* Choose the appropriate parser based on form type *)
  match form_type with
  | Some (c :: t) =>
      if startswith (L "13F") (c :: t) || contains (L "13F") (c :: t)
      then Form13FParser_class
      else BaseFilingParser_class
  | _ => BaseFilingParser_class
  end.

End ParserFactory.

Module FallbackSamples.
Import Py.

(** The fragment method 2 of [Form13FParser.extract_xml] finds in
    [FragmentSpec.filing_untagged]. *)
Definition declared_fragment : str := L "<?xml version='1.0'?>
<informationTable><infoTable><value>1</value></infoTable></informationTable>".

End FallbackSamples.

Module SinkSamples.
Import Py PyNum Pandas DataOrganizer.

(** A [read_csv] that keeps the cells as they are: the columns of the
    header line and the records in order. *)
Definition read_plain (f : csv) : frame :=
  {| columns := match f with Header cols :: _ => cols | _ => [] end;
     rows := flat_map (fun l => match l with Data r => [r] | Header _ => [] end) f |}.

Definition sample_accession_frame : frame :=
  Frame ["CIK"; "ACCESSION_NUMBER"]%string
        [ <["CIK" := Float (Fin (inject_Z 1234567))]>
            (<["ACCESSION_NUMBER" := Float (Fin (inject_Z 12345624000789))]> ∅) ].

Definition sample_company_frame : frame :=
  Frame ["CIK"; "COMPANY_CONFORMED_NAME"]%string
        [ <["CIK" := Str (L "0001234567")]>
            (<["COMPANY_CONFORMED_NAME" := Str (L "TEST COMPANY INC")]> ∅) ].

(** A [company_info.csv] that was not written by the organizer: it has
    no CIK column. *)
Definition foreign_company_file : csv := [Header ["NAME"%string]].

Definition sink_with_foreign_company_file : sink :=
  {| accession_info_file := None;
     company_info_file := Some foreign_company_file;
     holdings_files := ∅ |}.

End SinkSamples.

(* ===================================================================== *)
(** * Properties of the rate limiter                                      *)
(* ===================================================================== *)

Module RateLimiterFacts.
Import RateLimiter BucketSpec.
Local Open Scope Q_scope.

Lemma Qle_bool_false x y : Qle_bool x y = false -> y < x.
Proof.
  intros H. apply Qnot_le_lt. intros Hle.
  apply Qle_bool_iff in Hle. congruence.
Qed.



Lemma Qgtb_true x y : Qgtb x y = true -> y < x.
Proof. unfold Qgtb. intros H. apply negb_true_iff in H. now apply Qle_bool_false. Qed.





Section ClockFacts.
Variable delays : nat -> Q.
Hypothesis delays_nonneg : forall n, 0 <= delays n.









End ClockFacts.







End RateLimiterFacts.

(* ===================================================================== *)
(** * Facts about strings and the matcher                                 *)
(* ===================================================================== *)

Module PyFacts.
Import Py.

Lemma strip_prefix_app (l x : str) : strip_prefix l (l ++ x) = Some x.
Proof.
  induction l as [|c l IH]; simpl; [reflexivity|].
  now rewrite Ascii.eqb_refl.
Qed.

Lemma strip_prefix_Some (l s r : str) : strip_prefix l s = Some r -> s = l ++ r.
Proof.
  revert s. induction l as [|c l IH]; intros s H; simpl in *.
  - now inversion H.
  - destruct s as [|d s]; [discriminate|].
    destruct (Ascii.eqb c d) eqn:E; [|discriminate].
    apply Ascii.eqb_eq in E. subst d. f_equal. now apply IH.
Qed.

Lemma drop_while_id p s : starts_in p s = false -> drop_while p s = s.
Proof. destruct s as [|c s]; simpl; [reflexivity|]. now intros ->. Qed.

Lemma strip_with_id p s :
  starts_in p s = false -> starts_in p (rev s) = false -> strip_with p s = s.
Proof.
  intros H1 H2. unfold strip_with, lstrip_with, rstrip_with.
  rewrite (drop_while_id p s H1), (drop_while_id p (rev s) H2).
  apply rev_involutive.
Qed.

Lemma starts_in_forallb (p q : ascii -> bool) s :
  (forall c, q c = true -> p c = false) -> forallb q s = true -> starts_in p s = false.
Proof.
  intros Hpq H. destruct s as [|c s]; simpl in *; [reflexivity|].
  apply andb_true_iff in H. now apply Hpq.
Qed.

Lemma forallb_rev {A} (q : A -> bool) (s : list A) :
  forallb q (rev s) = forallb q s.
Proof.
  induction s as [|c s IH]; simpl; [reflexivity|].
  rewrite forallb_app, IH. simpl. rewrite andb_true_r. apply andb_comm.
Qed.

(** Stripping leaves a string of non-blank characters as it is. *)
Lemma strip_id_forallb (q : ascii -> bool) s :
  (forall c, q c = true -> is_space c = false) -> forallb q s = true -> strip s = s.
Proof.
  intros Hq H. unfold strip. apply strip_with_id.
  - now apply (starts_in_forallb _ q).
  - apply (starts_in_forallb _ q); [assumption|]. now rewrite forallb_rev.
Qed.

Lemma digit_not_space c : is_digit c = true -> is_space c = false.
Proof.
  unfold is_digit, is_space, in_range. intros H.
  apply andb_true_iff in H. destruct H as [H1 H2].
  apply Nat.leb_le in H1, H2.
  apply orb_false_iff. split; apply andb_false_iff.
  - right. apply Nat.leb_gt. lia.
  - right. apply Nat.leb_gt. lia.
Qed.

Lemma occurrences_from_ge l s : forall pos i,
  In i (occurrences_from l s pos) -> pos <= i.
Proof.
  induction s as [|c s IH]; intros pos i H; simpl in H.
  - rewrite app_nil_r in H. destruct (strip_prefix l []); simpl in H; [|contradiction].
    destruct H as [<-|[]]. lia.
  - apply in_app_or in H. destruct H as [H|H].
    + destruct (strip_prefix l (c :: s)); simpl in H; [|contradiction].
      destruct H as [<-|[]]. lia.
    + apply IH in H. lia.
Qed.

End PyFacts.

Module ReFacts.
Import Py Re PyFacts.

Lemma first_some_none {A B} (f : A -> option B) (l : list A) :
  (forall x, In x l -> f x = None) -> first_some f l = None.
Proof.
  induction l as [|x l IH]; intros H; simpl; [reflexivity|].
  rewrite (H x (or_introl eq_refl)). apply IH. intros y Hy. apply H. now right.
Qed.

Lemma first_some_ext {A B} (f g : A -> option B) (l : list A) :
  (forall x, In x l -> f x = g x) -> first_some f l = first_some g l.
Proof.
  induction l as [|x l IH]; intros H; simpl; [reflexivity|].
  rewrite (H x (or_introl eq_refl)). destruct (g x); [reflexivity|].
  apply IH. intros y Hy. apply H. now right.
Qed.

(** A greedy repetition tries the longest run first. *)
Lemma counts_greedy lo m :
  lo <= m -> counts lo m true = m :: rev (seq lo (m - lo)).
Proof.
  intros H. unfold counts.
  replace (S m - lo) with (S (m - lo)) by lia.
  rewrite seq_S, rev_app_distr. simpl. f_equal. lia.
Qed.

(** A lazy repetition tries the shortest run first. *)
Lemma counts_lazy lo m :
  lo <= m -> counts lo m false = lo :: seq (S lo) (m - lo).
Proof.
  intros H. unfold counts.
  replace (S m - lo) with (S (m - lo)) by lia. reflexivity.
Qed.

Lemma counts_short lo m greedy : m < lo -> counts lo m greedy = [].
Proof.
  intros H. unfold counts. replace (S m - lo) with 0 by lia.
  now destruct greedy.
Qed.

Lemma counts_range lo m greedy k : In k (counts lo m greedy) -> lo <= k <= m.
Proof.
  unfold counts. intros H.
  assert (Hk : In k (seq lo (S m - lo))).
  { destruct greedy; [now apply in_rev|assumption]. }
  apply in_seq in Hk. lia.
Qed.

(** The run of a class in front of a text that does not continue it. *)
Lemma run_length_unbounded c (ws x : str) :
  forallb c ws = true -> starts_in c x = false ->
  run_length c None (ws ++ x) = length ws.
Proof.
  intros Hws Hx. induction ws as [|d ws IH]; simpl in *.
  - destruct x as [|e x]; simpl in *; [reflexivity|]. now rewrite Hx.
  - apply andb_true_iff in Hws. destruct Hws as [Hd Hws].
    rewrite Hd. f_equal. now apply IH.
Qed.

Lemma run_length_bounded c (ws x : str) : forall k,
  forallb c ws = true -> starts_in c x = false ->
  run_length c (Some k) (ws ++ x) = Nat.min k (length ws).
Proof.
  induction ws as [|d ws IH]; intros k Hws Hx; simpl in *.
  - rewrite Nat.min_0_r. destruct x as [|e x]; simpl in *.
    + now destruct k.
    + rewrite Hx. now destruct k.
  - apply andb_true_iff in Hws. destruct Hws as [Hd Hws].
    destruct k; [reflexivity|]. rewrite Hd. simpl. f_equal. now apply IH.
Qed.

Lemma run_length_zero c hi (x : str) :
  starts_in c x = false -> run_length c hi x = 0.
Proof.
  intros Hx. destruct x as [|e x]; simpl in *.
  - destruct hi as [[|k]|]; reflexivity.
  - rewrite Hx. destruct hi as [[|k]|]; reflexivity.
Qed.

(** [re.search] with a pattern that begins with a literal only looks at
    the occurrences of the literal. *)
Lemma search_from_occurrences (l : str) (p : pattern) (s : str) : forall pos,
  search_from (Lit l :: p) s pos =
  first_some (fun i => match_at (Lit l :: p) (skipn (i - pos) s) i)
             (occurrences_from l s pos).
Proof.
  induction s as [|c s IH]; intros pos.
  - simpl. unfold match_at at 1. simpl.
    destruct (strip_prefix l []) as [r|] eqn:E; simpl.
    + rewrite Nat.sub_diag. simpl. unfold match_at. simpl. rewrite E.
      destruct (match_here p r _ _) as [[n g]|]; reflexivity.
    + reflexivity.
  - cbn [search_from occurrences_from].
    assert (Htail : search_from (Lit l :: p) s (S pos) =
              first_some (fun i => match_at (Lit l :: p) (skipn (i - pos) (c :: s)) i)
                         (occurrences_from l s (S pos))).
    { rewrite IH. apply first_some_ext. intros i Hi.
      apply occurrences_from_ge in Hi.
      replace (i - pos) with (S (i - S pos)) by lia. reflexivity. }
    destruct (strip_prefix l (c :: s)) eqn:E.
    + cbn [app first_some]. rewrite Nat.sub_diag. cbn [skipn].
      destruct (match_at (Lit l :: p) (c :: s) pos); [reflexivity|].
      exact Htail.
    + cbn [app]. unfold match_at at 1. cbn [match_here]. rewrite E. exact Htail.
Qed.

Lemma search_occurrences (l : str) (p : pattern) (s : str) :
  search (Lit l :: p) s =
  first_some (fun i => match_at (Lit l :: p) (skipn i s) i) (occurrences l s).
Proof.
  unfold search, occurrences. rewrite search_from_occurrences.
  apply first_some_ext. intros i _. now rewrite Nat.sub_0_r.
Qed.

(** No occurrence of the leading literal: no match. *)
Lemma search_no_occurrence (l : str) (p : pattern) (s : str) :
  occurrences l s = [] -> search (Lit l :: p) s = None.
Proof. intros H. now rewrite search_occurrences, H. Qed.

End ReFacts.

Module LabelFacts.
Import Py Re PyFacts ReFacts.

Lemma skipn_app_length {A} (a b : list A) : skipn (length a) (a ++ b) = b.
Proof. induction a; simpl; auto. Qed.

Lemma firstn_app_length {A} (a b : list A) : firstn (length a) (a ++ b) = a.
Proof. induction a; simpl; [now destruct b|]. now f_equal. Qed.

Lemma space_not_digit c : is_space c = true -> is_digit c = false.
Proof.
  intros H. destruct (is_digit c) eqn:E; [|reflexivity].
  apply digit_not_space in E. congruence.
Qed.

Section Labeled.

Variable label : str.
Variable ws ds rest : str.
Hypothesis ws_nonempty : ws <> [].
Hypothesis ws_blank : forallb is_space ws = true.
Hypothesis ds_nonempty : ds <> [].

(** [LABEL:\s+(c+)] on a text that starts with the label, blanks and a
    run [ds] of the class: the group is the whole run. *)
Lemma match_label_run (c : ascii -> bool) n :
  (forall x, c x = true -> is_space x = false) ->
  forallb c ds = true ->
  starts_in c rest = false ->
  match_here [Lit label; plus is_space; GOpen; plus c; GClose]
             (label ++ ws ++ ds ++ rest) n GNone
  = Some (n + length label + length ws + length ds, GDone ds).
Proof.
  intros Hc Hds Hrest.
  assert (Hlen : 1 <= length ws) by (destruct ws; simpl; [congruence|lia]).
  assert (Hlen' : 1 <= length ds) by (destruct ds; simpl; [congruence|lia]).
  assert (Hnext : starts_in is_space (ds ++ rest) = false).
  { destruct ds as [|d ds']; [congruence|]. simpl in *.
    apply andb_true_iff in Hds. now apply Hc. }
  cbn [match_here]. rewrite strip_prefix_app. unfold plus. cbn [match_here record].
  rewrite (run_length_unbounded is_space ws (ds ++ rest) ws_blank Hnext).
  rewrite (counts_greedy 1 (length ws) Hlen). cbn [first_some].
  rewrite skipn_app_length. cbn [match_here record].
  rewrite (run_length_unbounded c ds rest Hds Hrest).
  rewrite (counts_greedy 1 (length ds) Hlen'). cbn [first_some].
  cbn [match_here record close app]. now rewrite firstn_app_length.
Qed.

Hypothesis ds_digits : forallb is_digit ds = true.
Hypothesis rest_no_digit : starts_in is_digit rest = false.

(** [LABEL:\s+(\d{10})] takes the first ten digits of a longer run. *)
Lemma match_label_ten_digits n :
  10 <= length ds ->
  match_here [Lit label; plus is_space; GOpen; exactly 10 is_digit; GClose]
             (label ++ ws ++ ds ++ rest) n GNone
  = Some (n + length label + length ws + 10, GDone (firstn 10 ds)).
Proof.
  intros Hten.
  assert (Hlen : 1 <= length ws) by (destruct ws; simpl; [congruence|lia]).
  assert (Hnext : starts_in is_space (ds ++ rest) = false).
  { destruct ds as [|d ds']; [congruence|]. simpl in *.
    apply andb_true_iff in ds_digits. now apply digit_not_space. }
  cbn [match_here]. rewrite strip_prefix_app. unfold plus, exactly.
  cbn [match_here record].
  rewrite (run_length_unbounded is_space ws (ds ++ rest) ws_blank Hnext).
  rewrite (counts_greedy 1 (length ws) Hlen). cbn [first_some].
  rewrite skipn_app_length. cbn [match_here record].
  rewrite (run_length_bounded is_digit ds rest 10 ds_digits rest_no_digit).
  rewrite Nat.min_l by assumption.
  rewrite (counts_greedy 10 10 (le_n 10)). cbn [first_some].
  cbn [match_here record close app].
  rewrite firstn_app. replace (10 - length ds) with 0 by lia.
  rewrite firstn_O, app_nil_r. reflexivity.
Qed.

(** [LABEL:\s+(\d{10})] does not match a run of fewer than ten digits. *)
Lemma match_label_short_run n :
  length ds < 10 ->
  match_here [Lit label; plus is_space; GOpen; exactly 10 is_digit; GClose]
             (label ++ ws ++ ds ++ rest) n GNone
  = None.
Proof.
  intros Hshort.
  cbn [match_here]. rewrite strip_prefix_app. unfold plus, exactly.
  cbn [match_here record].
  apply first_some_none. intros k Hk. apply counts_range in Hk.
  assert (Hrun : run_length is_digit (Some 10) (skipn k (ws ++ ds ++ rest)) < 10).
  { destruct (Nat.eq_dec k (length ws)) as [->|Hne].
    - rewrite skipn_app_length.
      rewrite (run_length_bounded is_digit ds rest 10 ds_digits rest_no_digit). lia.
    - assert (Hk' : k < length ws).
      { assert (Hr := run_length_unbounded is_space ws (ds ++ rest) ws_blank).
        assert (Hnext : starts_in is_space (ds ++ rest) = false).
        { destruct ds as [|d ds']; [congruence|]. simpl in *.
          apply andb_true_iff in ds_digits. now apply digit_not_space. }
        rewrite (Hr Hnext) in Hk. lia. }
      rewrite skipn_app. replace (k - length ws) with 0 by lia. cbn [skipn].
      rewrite run_length_zero; [lia|].
      destruct (skipn k ws) as [|d tl] eqn:E.
      { apply (f_equal (@length _)) in E. rewrite length_skipn in E. simpl in E. lia. }
      simpl. apply space_not_digit.
      assert (Hin : In d (skipn k ws)) by (rewrite E; now left).
      assert (Hall := proj1 (forallb_forall is_space ws) ws_blank).
      apply Hall.
      rewrite <- (firstn_skipn k ws). apply in_or_app. now right. }
  cbn [match_here]. now rewrite counts_short.
Qed.

End Labeled.

End LabelFacts.

(* ===================================================================== *)
(** * Properties of header extraction                                     *)
(* ===================================================================== *)

Module HeaderFacts.
Import Py Re PyNum Pandas BaseFilingParser HeaderSpec PyFacts ReFacts LabelFacts.

Lemma get_insert_eq (f : string) (v : cell) (r : gmap string cell) :
  get f (<[f := v]> r) = v.
Proof. unfold get. now rewrite lookup_insert_eq. Qed.

Lemma get_insert_ne (f g : string) (v : cell) (r : gmap string cell) :
  f <> g -> get g (<[f := v]> r) = get g r.
Proof. intros H. unfold get. now rewrite lookup_insert_ne. Qed.

(** Filling a dict from a table: each key holds the value computed from
    its own (last) entry. *)
Lemma fold_insert_lookup {V} (g : V -> cell)
    (step : gmap string cell -> string * V -> gmap string cell)
    (t : list (string * V)) :
  (forall info k v, step info (k, v) = <[k := g v]> info) ->
  forall (acc : gmap string cell) (f : string),
  fold_left step t acc !! f =
  match table_entry f t with
  | Some v => Some (g v)
  | None => acc !! f
  end.
Proof.
  intros Hstep.
  induction t as [|[k v] t IH]; intros acc f; simpl; [reflexivity|].
  rewrite IH, Hstep. destruct (table_entry f t); [reflexivity|].
  destruct (String.eqb k f) eqn:E.
  - apply String.eqb_eq in E. subst k. apply lookup_insert_eq.
  - apply String.eqb_neq in E. now apply lookup_insert_ne.
Qed.

Lemma extract_get (t : table) (content : str) (f : string) p d :
  table_entry f t = Some (p, d) ->
  get f (extract t content) = field_value p d content.
Proof.
  intros H. unfold get, extract.
  rewrite (fold_insert_lookup (fun pd => field_value (fst pd) (snd pd) content)).
  - now rewrite H.
  - intros info k [p0 d0]. reflexivity.
Qed.

Lemma dict_of_get (fields : list (string * (pattern * bool))) (content : str)
    (f : string) p b :
  table_entry f fields = Some (p, b) ->
  get f (SECFilingParser.dict_of fields content) = SECFilingParser.searched p b content.
Proof.
  intros H. unfold get, SECFilingParser.dict_of.
  rewrite (fold_insert_lookup
             (fun pb => SECFilingParser.searched (fst pb) (snd pb) content)).
  - now rewrite H.
  - intros info k [p0 b0]. reflexivity.
Qed.

Lemma base_company_rows to_datetime content :
  rows (BaseFilingParser.parse_company_info to_datetime content) =
  [finish_company to_datetime (extract company_patterns content)].
Proof. reflexivity. Qed.

Lemma core_company_rows to_datetime content :
  rows (SECFilingParser.parse_company_info to_datetime content) =
  [finish_company to_datetime
     (SECFilingParser.dict_of SECFilingParser.company_fields content)].
Proof. reflexivity. Qed.

Lemma finish_company_get to_datetime info (f : string) :
  get f (finish_company to_datetime info) = finished to_datetime f (get f info).
Proof.
  unfold finish_company, finished, is_date_field.
  destruct (String.eqb f "DATE_OF_NAME_CHANGE") eqn:E2.
  - apply String.eqb_eq in E2. subst f. rewrite get_insert_eq.
    rewrite get_insert_ne by discriminate. now rewrite orb_true_r.
  - apply String.eqb_neq in E2.
    rewrite get_insert_ne by congruence.
    destruct (String.eqb f "DATE") eqn:E1.
    + apply String.eqb_eq in E1. subst f. now rewrite get_insert_eq.
    + apply String.eqb_neq in E1. now rewrite get_insert_ne by congruence.
Qed.




End HeaderFacts.

Module HeaderClaims.
Import Py Re PyNum Pandas BaseFilingParser HeaderSpec PyFacts ReFacts LabelFacts HeaderFacts.



(** C9.  For every text, in the row [parse_company_info] returns (in
    both parsers) each mail address column equals the business address
    column of the same name: the two are filled from the same pattern
    searched in the same text. *)
Theorem mail_address_equals_business_address (to_datetime : cell -> cell) (content : str) :
  Forall same_address (rows (BaseFilingParser.parse_company_info to_datetime content)) /\
  length (rows (BaseFilingParser.parse_company_info to_datetime content)) = 1 /\
  Forall same_address (rows (SECFilingParser.parse_company_info to_datetime content)) /\
  length (rows (SECFilingParser.parse_company_info to_datetime content)) = 1.
Proof.
  rewrite base_company_rows, core_company_rows.
  split; [|split; [reflexivity|split; [|reflexivity]]].
  - constructor; [|constructor]. unfold same_address.
    rewrite !finish_company_get.
    repeat split; (erewrite !extract_get by reflexivity); reflexivity.
  - constructor; [|constructor]. unfold same_address.
    rewrite !finish_company_get.
    repeat split; (erewrite !dict_of_get by reflexivity); reflexivity.
Qed.

End HeaderClaims.

Module CikFacts.
Import Py Re PyNum Pandas BaseFilingParser HeaderSpec PyFacts ReFacts LabelFacts HeaderFacts.

Lemma digit_char_neq (d x : ascii) :
  is_digit d = true -> is_digit x = false -> Ascii.eqb d x = false.
Proof.
  intros Hd Hx. destruct (Ascii.eqb d x) eqn:E; [|reflexivity].
  apply Ascii.eqb_eq in E. subst x. congruence.
Qed.

Lemma digit_lower d : is_digit d = true -> lower d = d.
Proof.
  intros Hd. unfold lower.
  assert (H : is_upper d = false); [|now rewrite H].
  unfold is_digit, is_upper, in_range in *.
  apply andb_true_iff in Hd. destruct Hd as [H1 H2].
  apply Nat.leb_le in H1, H2.
  apply andb_false_iff. left. apply Nat.leb_gt. lia.
Qed.

Lemma digitpart_digits (ds : str) : forall acc cnt,
  forallb is_digit ds = true ->
  digitpart ds acc cnt =
  (fold_left (fun a c => (a * 10 + digit_value c)%Z) ds acc, cnt + length ds, []).
Proof.
  induction ds as [|d ds IH]; intros acc cnt H; simpl in *.
  - now rewrite Nat.add_0_r.
  - apply andb_true_iff in H. destruct H as [Hd Hds].
    rewrite Hd, IH by assumption.
    now replace (S cnt + length ds) with (cnt + S (length ds)) by lia.
Qed.

(** [float] of a string of digits is the number it denotes. *)
Lemma py_float_digits (ds : str) :
  ds <> [] -> forallb is_digit ds = true ->
  py_float ds = Some (Fin (inject_Z (decimal_value ds))).
Proof.
  intros Hne Hds. unfold py_float.
  rewrite (strip_id_forallb is_digit ds digit_not_space Hds).
  destruct ds as [|d ds']; [congruence|].
  pose proof Hds as Hall. simpl in Hds. apply andb_true_iff in Hds.
  destruct Hds as [Hd Hds'].
  unfold sign.
  rewrite (digit_char_neq d "-"%char Hd eq_refl), (digit_char_neq d "+"%char Hd eq_refl).
  cbn [map]. rewrite (digit_lower d Hd).
  unfold L. cbn [list_ascii_of_string str_eqb].
  rewrite (digit_char_neq d "i"%char Hd eq_refl), (digit_char_neq d "n"%char Hd eq_refl).
  cbn [andb orb].
  unfold mantissa. cbn [starts_with_digit]. rewrite Hd.
  rewrite (digitpart_digits (d :: ds') 0 0 Hall).
  cbn [exponent]. unfold apply_sign, decimal_value.
  set (v := fold_left _ _ _).
  f_equal. f_equal.
  transitivity (Qred (inject_Z v)).
  - apply Qred_complete. unfold pow10.
    change (Qpower (10 # 1) (0 - Z.of_nat 0)) with 1%Q. apply Qmult_1_r.
  - apply Qred_identity. simpl. apply Z.gcd_1_r.
Qed.

Lemma astype_float_ignore_single (c : cell) :
  astype_float_ignore [c] = [astype_float_ignore1 c].
Proof.
  unfold astype_float_ignore, astype_float_ignore1. simpl.
  now destruct (float_of_cell c).
Qed.

Lemma update_column_map col (g : cell -> cell) cols (r : gmap string cell) :
  has_column col (Frame cols [r]) = true ->
  update_column col (map g) (Frame cols [r]) = Frame cols [<[col := g (get col r)]> r].
Proof.
  intros H. unfold update_column. rewrite H. unfold set_column. now rewrite H.
Qed.

Lemma update_column_astype col (g : cell -> cell) cols (r : gmap string cell) :
  has_column col (Frame cols [r]) = true ->
  update_column col (fun vs => astype_float_ignore (map g vs)) (Frame cols [r]) =
  Frame cols [<[col := astype_float_ignore1 (g (get col r))]> r].
Proof.
  intros H. unfold update_column. rewrite H. unfold set_column. rewrite H.
  cbn [rows map]. now rewrite astype_float_ignore_single.
Qed.

Lemma update_column_astype_id col cols (r : gmap string cell) :
  has_column col (Frame cols [r]) = true ->
  update_column col astype_float_ignore (Frame cols [r]) =
  Frame cols [<[col := astype_float_ignore1 (get col r)]> r].
Proof.
  intros H. unfold update_column. rewrite H. unfold set_column. rewrite H.
  cbn [rows map]. now rewrite astype_float_ignore_single.
Qed.

(** The single row of [BaseFilingParser.parse_accession_info]. *)
Lemma base_accession_rows to_datetime content :
  rows (BaseFilingParser.parse_accession_info to_datetime content) =
  [finish_accession to_datetime (extract accession_patterns content)].
Proof.
  unfold BaseFilingParser.parse_accession_info. cbn [fold_left].
  rewrite (update_column_map "CONFORMED_DATE") by reflexivity.
  rewrite (update_column_map "FILED_DATE") by reflexivity.
  rewrite (update_column_map "EFFECTIVENESS_DATE") by reflexivity.
  rewrite (update_column_astype "ACCESSION_NUMBER") by reflexivity.
  rewrite (update_column_astype_id "CIK") by reflexivity.
  reflexivity.
Qed.

Lemma finish_accession_cik to_datetime (info : gmap string cell) :
  get "CIK" (finish_accession to_datetime info) = astype_float_ignore1 (get "CIK" info).
Proof.
  unfold finish_accession. cbv zeta. rewrite get_insert_eq.
  now rewrite !get_insert_ne by discriminate.
Qed.

End CikFacts.

Module CikClaims.
Import Py Re PyNum Pandas BaseFilingParser HeaderSpec.
Import PyFacts ReFacts LabelFacts HeaderFacts CikFacts.

Section OneCik.

Variables pre ws ds rest : str.

(** A text with one CENTRAL INDEX KEY label, followed by blanks [ws] and
    the run of digits [ds]. *)
Let content : str := pre ++ cik_label ++ ws ++ ds ++ rest.

Hypothesis one_label : occurrences cik_label content = [length pre].
Hypothesis ws_nonempty : ws <> [].
Hypothesis ws_blank : forallb is_space ws = true.
Hypothesis ds_nonempty : ds <> [].
Hypothesis ds_digits : forallb is_digit ds = true.
Hypothesis rest_no_digit : starts_in is_digit rest = false.

Lemma search_at_label (p : pattern) :
  search (Lit cik_label :: p) content =
  match_at (Lit cik_label :: p) (cik_label ++ ws ++ ds ++ rest) (length pre).
Proof.
  rewrite search_occurrences, one_label. cbn [first_some].
  unfold content. rewrite skipn_app_length.
  now destruct (match_at _ _ _).
Qed.

Lemma company_cik_value :
  field_value (labeled "CENTRAL INDEX KEY:" is_digit) NA content = Str ds.
Proof.
  unfold field_value, labeled. fold cik_label. rewrite search_at_label.
  unfold match_at.
  rewrite match_label_run by (assumption || exact digit_not_space).
  cbn [m_group1 group_text].
  now rewrite (strip_id_forallb is_digit ds digit_not_space ds_digits).
Qed.

Lemma accession_cik_short :
  length ds < 10 ->
  field_value [Lit cik_label; plus is_space; GOpen; exactly 10 is_digit; GClose]
              NA content = NA.
Proof.
  intros Hshort. unfold field_value. rewrite search_at_label. unfold match_at.
  now rewrite match_label_short_run by assumption.
Qed.

Lemma firstn_digits n : forallb is_digit (firstn n ds) = true.
Proof.
  apply forallb_forall. intros x Hx.
  apply (proj1 (forallb_forall is_digit ds) ds_digits).
  rewrite <- (firstn_skipn n ds). apply in_or_app. now left.
Qed.

Lemma accession_cik_long :
  10 <= length ds ->
  field_value [Lit cik_label; plus is_space; GOpen; exactly 10 is_digit; GClose]
              NA content = Str (firstn 10 ds).
Proof.
  intros Hlong. unfold field_value. rewrite search_at_label. unfold match_at.
  rewrite match_label_ten_digits by assumption.
  cbn [m_group1 group_text].
  now rewrite (strip_id_forallb is_digit (firstn 10 ds) digit_not_space (firstn_digits 10)).
Qed.

Lemma cik_of_both_parsers (to_datetime : cell -> cell) :
  map (get "CIK") (rows (BaseFilingParser.parse_company_info to_datetime content)) =
    [Str ds] /\
  (length ds < 10 ->
   map (get "CIK") (rows (BaseFilingParser.parse_accession_info to_datetime content)) =
     [NA]) /\
  (10 <= length ds ->
   map (get "CIK") (rows (BaseFilingParser.parse_accession_info to_datetime content)) =
     [Float (Fin (inject_Z (decimal_value (firstn 10 ds))))]).
Proof.
  rewrite base_company_rows, base_accession_rows. cbn [map].
  rewrite finish_company_get, finish_accession_cik.
  rewrite (extract_get company_patterns content "CIK"
             (labeled "CENTRAL INDEX KEY:" is_digit) NA eq_refl).
  rewrite (extract_get accession_patterns content "CIK"
             [Lit cik_label; plus is_space; GOpen; exactly 10 is_digit; GClose]
             NA eq_refl).
  rewrite company_cik_value.
  split; [reflexivity|]. split; intros Hlen.
  - now rewrite (accession_cik_short Hlen).
  - rewrite (accession_cik_long Hlen).
    unfold astype_float_ignore1. cbn [float_of_cell].
    rewrite py_float_digits; [reflexivity| |apply firstn_digits].
    destruct ds as [|d ds']; [congruence|]. discriminate.
Qed.

End OneCik.

(** C10 (as amended).  Take a text with one CENTRAL INDEX KEY label,
    followed by blanks and a maximal run [ds] of digits.
    [parse_company_info] gives the whole run as the CIK.
    [parse_accession_info], whose pattern asks for exactly ten digits,
    gives an absent CIK when the run has fewer than ten digits, and the
    number made of the first ten digits when the run has ten digits or
    more. *)
Theorem cik_ten_digit_pattern (to_datetime : cell -> cell) (pre ws ds rest : str) :
  occurrences cik_label (pre ++ cik_label ++ ws ++ ds ++ rest) = [length pre] ->
  ws <> [] ->
  forallb is_space ws = true ->
  ds <> [] ->
  forallb is_digit ds = true ->
  starts_in is_digit rest = false ->
  map (get "CIK")
      (rows (BaseFilingParser.parse_company_info to_datetime
               (pre ++ cik_label ++ ws ++ ds ++ rest))) = [Str ds] /\
  (length ds < 10 ->
   map (get "CIK")
       (rows (BaseFilingParser.parse_accession_info to_datetime
                (pre ++ cik_label ++ ws ++ ds ++ rest))) = [NA]) /\
  (10 <= length ds ->
   map (get "CIK")
       (rows (BaseFilingParser.parse_accession_info to_datetime
                (pre ++ cik_label ++ ws ++ ds ++ rest))) =
     [Float (Fin (inject_Z (decimal_value (firstn 10 ds))))]).
Proof.
  intros H1 H2 H3 H4 H5 H6.
  exact (cik_of_both_parsers pre ws ds rest H1 H2 H3 H4 H5 H6 to_datetime).
Qed.

Lemma cik_ten_digit_pattern_witness :
  occurrences cik_label
    (L "CIK" ++ cik_label ++ L "   " ++ L "1234567" ++ L " end") = [length (L "CIK")] /\
  L "   " <> [] /\
  forallb is_space (L "   ") = true /\
  L "1234567" <> [] /\
  forallb is_digit (L "1234567") = true /\
  starts_in is_digit (L " end") = false /\
  map (get "CIK")
      (rows (BaseFilingParser.parse_company_info eight_digit_dates
               (L "CIK" ++ cik_label ++ L "   " ++ L "1234567" ++ L " end")))
    = [Str (L "1234567")].
Proof.
  assert (H1 : occurrences cik_label
                 (L "CIK" ++ cik_label ++ L "   " ++ L "1234567" ++ L " end")
               = [length (L "CIK")]) by reflexivity.
  assert (H2 : L "   " <> []) by discriminate.
  assert (H3 : forallb is_space (L "   ") = true) by reflexivity.
  assert (H4 : L "1234567" <> []) by discriminate.
  assert (H5 : forallb is_digit (L "1234567") = true) by reflexivity.
  assert (H6 : starts_in is_digit (L " end") = false) by reflexivity.
  exact (conj H1 (conj H2 (conj H3 (conj H4 (conj H5 (conj H6
           (proj1 (cik_ten_digit_pattern eight_digit_dates (L "CIK") (L "   ")
                     (L "1234567") (L " end") H1 H2 H3 H4 H5 H6)))))))).
Defined.

(** C10, the case it gets wrong: a CENTRAL INDEX KEY of eleven digits is
    not absent from [parse_accession_info]; its first ten digits are
    taken. *)
Lemma cik_eleven_digits_not_absent :
  map (get "CIK")
      (rows (BaseFilingParser.parse_accession_info eight_digit_dates header_long_cik))
  = [Float (Fin (inject_Z 1234567890))] /\
  map (get "CIK")
      (rows (BaseFilingParser.parse_company_info eight_digit_dates header_long_cik))
  = [Str (L "12345678901")].
Proof. split; vm_compute; reflexivity. Qed.

End CikClaims.

(* ===================================================================== *)
(** * Properties of the index parser                                      *)
(* ===================================================================== *)

Module IndexFacts.
Import Py SECDownloader IndexSpec.

Lemma newline_is_linebreak : is_linebreak newline = true.
Proof. reflexivity. Qed.

Lemma splitlines_aux_line (l rest cur : str) :
  no_breaks l = true ->
  splitlines_aux (l ++ newline :: rest) cur false =
  (rev cur ++ l) :: splitlines_aux rest [] false.
Proof.
  revert cur. induction l as [|c l IH]; intros cur H.
  - cbn [app splitlines_aux andb]. rewrite newline_is_linebreak.
    now rewrite app_nil_r.
  - unfold no_breaks in H. cbn [forallb] in H. apply andb_true_iff in H.
    destruct H as [Hc Hl]. apply negb_true_iff in Hc.
    cbn [app splitlines_aux andb]. rewrite Hc.
    rewrite (IH (c :: cur) Hl). cbn [rev]. now rewrite <- app_assoc.
Qed.

(** [splitlines] gives back the lines of a text written line by line. *)
Lemma splitlines_unlines (ls : list str) :
  forallb no_breaks ls = true -> splitlines (unlines ls) = ls.
Proof.
  unfold splitlines. induction ls as [|l ls IH]; intros H; [reflexivity|].
  cbn [forallb] in H. apply andb_true_iff in H. destruct H as [Hl Hls].
  cbn [unlines flat_map]. rewrite <- app_assoc. cbn [app].
  rewrite (splitlines_aux_line l _ [] Hl). cbn [rev app].
  f_equal. now apply IH.
Qed.

Lemma first_index_app (p : str -> bool) (pre : list str) (sep : str) (data : list str) :
  forall i,
  forallb (fun l => negb (p l)) pre = true -> p sep = true ->
  first_index p (pre ++ sep :: data) i = Some (i + length pre).
Proof.
  induction pre as [|l pre IH]; intros i Hpre Hsep; cbn [app first_index length].
  - rewrite Hsep. f_equal. lia.
  - cbn [forallb] in Hpre. apply andb_true_iff in Hpre. destruct Hpre as [Hl Hpre].
    apply negb_true_iff in Hl. rewrite Hl, (IH (S i) Hpre Hsep). f_equal. lia.
Qed.

Lemma skipn_past_separator (pre : list str) (sep : str) (data : list str) :
  skipn (0 + length pre + 1) (pre ++ sep :: data) = data.
Proof.
  induction pre as [|l pre IH]; [reflexivity|]. exact IH.
Qed.

Lemma entry_of_line_sliced (line : str) : sliced line (entry_of_line line).
Proof. unfold sliced, entry_of_line. cbn. repeat split. Qed.

(** C8.  For every index text made of lines [pre], a first separator
    line [sep] (dashes only, blanks aside) and data lines [data], a
    response with status 200 is parsed into one record per data line, in
    order, whose fields are the columns [0,12), [12,74), [74,86),
    [86,98) and [98,end) of the line, stripped of blanks.  The synthetic
    index with a separator and two data lines gives exactly the two
    expected records. *)
Theorem form_index_columns (pre : list str) (sep : str) (data : list str) :
  forallb no_breaks (pre ++ sep :: data) = true ->
  forallb (fun l => negb (is_separator l)) pre = true ->
  is_separator sep = true ->
  _parse_form_idx (Response 200 (unlines (pre ++ sep :: data))) = map entry_of_line data /\
  length (_parse_form_idx (Response 200 (unlines (pre ++ sep :: data)))) = length data /\
  Forall2 sliced data (_parse_form_idx (Response 200 (unlines (pre ++ sep :: data)))) /\
  _parse_form_idx (Response 200 sample_index) = sample_index_entries.
Proof.
  intros Hlines Hpre Hsep.
  assert (Heq : _parse_form_idx (Response 200 (unlines (pre ++ sep :: data)))
                = map entry_of_line data).
  { unfold _parse_form_idx. cbn [status_code text Nat.eqb negb].
    rewrite (splitlines_unlines _ Hlines).
    rewrite (first_index_app is_separator pre sep data 0 Hpre Hsep).
    now rewrite skipn_past_separator. }
  rewrite Heq. split; [reflexivity|]. split; [apply length_map|]. split.
  - clear. induction data as [|l data IH]; constructor; [apply entry_of_line_sliced|exact IH].
  - vm_compute. reflexivity.
Qed.

Lemma form_index_columns_witness :
  forallb no_breaks ([L "Form Type"] ++ L " ---- " :: [L "13F-HR      ACME"; L "10-K"]) = true /\
  forallb (fun l => negb (is_separator l)) [L "Form Type"] = true /\
  is_separator (L " ---- ") = true /\
  length (_parse_form_idx
            (Response 200 (unlines ([L "Form Type"] ++ L " ---- "
                                      :: [L "13F-HR      ACME"; L "10-K"])))) = 2.
Proof.
  assert (H1 : forallb no_breaks
                 ([L "Form Type"] ++ L " ---- " :: [L "13F-HR      ACME"; L "10-K"]) = true)
    by reflexivity.
  assert (H2 : forallb (fun l => negb (is_separator l)) [L "Form Type"] = true)
    by reflexivity.
  assert (H3 : is_separator (L " ---- ") = true) by reflexivity.
  exact (conj H1 (conj H2 (conj H3
           (proj1 (proj2 (form_index_columns [L "Form Type"] (L " ---- ")
                            [L "13F-HR      ACME"; L "10-K"] H1 H2 H3)))))).
Defined.

End IndexFacts.

(* ===================================================================== *)
(** * Properties of the holdings fragment                                 *)
(* ===================================================================== *)

Module FragmentFacts.
Import Py Re Fragment FragmentSpec PyFacts ReFacts.










End FragmentFacts.

(* ===================================================================== *)
(** * Properties of the holdings table                                    *)
(* ===================================================================== *)

Module HoldingsFacts.
Import Py Re PyNum Pandas ET DataOrganizer Holdings HoldingsSpec.
Import PyFacts ReFacts HeaderSpec HeaderFacts.



Lemma convert_column_nil : convert_column [] = Returns [].
Proof. reflexivity. Qed.


(** And only then. *)
Lemma convert_column_cells (vs : list text) : forall rs,
  convert_column vs = Returns rs ->
  Forall2 (fun t r => convert_cell t = Returns r) vs rs.
Proof.
  induction vs as [|t vs IH]; intros rs H.
  - inversion H. constructor.
  - unfold convert_column in H. cbn [map all_some] in H.
    destruct (py_float (replace_empty (remove_whitespace (astype_str t)))) as [f|] eqn:Ef;
      [|discriminate].
    destruct (all_some (map py_float _)) as [fs|] eqn:Efs; [|discriminate].
    cbn [map all_returned bind] in H.
    destruct (to_int64 f) as [r|] eqn:Er; [|discriminate].
    destruct (all_returned (map to_int64 fs)) as [rs'|] eqn:Ers; [|discriminate].
    inversion H; subst rs. constructor.
    + unfold convert_cell, clean. now rewrite Ef.
    + apply IH. unfold convert_column. now rewrite Efs.
Qed.











End HoldingsFacts.

(* ===================================================================== *)
(** * Properties of the persistence path                                  *)
(* ===================================================================== *)

Module SinkFacts.
Import Py Re PyNum Pandas ET DataOrganizer Fragment FragmentSpec SinkSpec HeaderSpec.

Section Sink.

Variable to_datetime : cell -> cell.
Variable fromstring : str -> option element.
Variable read_csv : csv -> frame.

Lemma save_company_info_accession_file (df : frame) (s : sink) :
  accession_info_file (snd (save_company_info read_csv df s)) = accession_info_file s.
Proof.
  unfold save_company_info.
  destruct (company_info_file s); [|reflexivity].
  destruct (iloc0 "CIK" df); [|reflexivity].
  destruct (column "CIK" (read_csv c)); reflexivity.
Qed.

(** Once the two keys are read, [process_filing_data] appends the
    accession frame to [accession_info.csv], whatever the later steps
    do. *)
Lemma process_filing_data_appends (accession_info_df company_info_df : frame)
    (holdings_df : holdings_frame) (s : sink) (cik accession_number : str) :
  key_of "CIK" accession_info_df = Returns cik ->
  key_of "ACCESSION_NUMBER" accession_info_df = Returns accession_number ->
  accession_info_file
    (snd (process_filing_data read_csv accession_info_df company_info_df holdings_df s))
  = accession_info_file (save_accession_info accession_info_df s).
Proof.
  intros H1 H2. unfold process_filing_data. rewrite H1, H2.
  pose proof (save_company_info_accession_file company_info_df
                (save_accession_info accession_info_df s)) as H.
  destruct (save_company_info read_csv company_info_df _) as [[u|e] s2];
    cbn [snd] in *; exact H.
Qed.

Lemma records_for_app a (f g : csv) :
  records_for a (f ++ g) = records_for a f ++ records_for a g.
Proof. unfold records_for. apply flat_map_app. Qed.

(** Saving the same accession frame again stores its records again. *)
Lemma save_accession_info_counts (df : frame) (s : sink) (a : cell) :
  count_records a (accession_info_file (save_accession_info df s)) =
  count_records a (accession_info_file s) + length (records_for a (map Data (rows df))).
Proof.
  unfold save_accession_info, count_records. cbn [accession_info_file].
  destruct (accession_info_file s) as [old|]; unfold to_csv; cbn [negb app].
  - now rewrite records_for_app, length_app.
  - reflexivity.
Qed.

(** What [Form13FParser.process_filing] leaves in [accession_info.csv]
    for the sample filings. *)
Lemma form13f_sample_accession_file (content : str) (s : sink) (cik accession_number : str) :
  is_empty (Form13FParser.parse_accession_info to_datetime content) = false ->
  has_column "ACCESSION_NUMBER" (Form13FParser.parse_accession_info to_datetime content)
    = true ->
  key_of "CIK" (Form13FParser.parse_accession_info to_datetime content) = Returns cik ->
  key_of "ACCESSION_NUMBER" (Form13FParser.parse_accession_info to_datetime content)
    = Returns accession_number ->
  accession_info_file
    (Form13FParser.process_filing to_datetime fromstring read_csv content s)
  = accession_info_file
      (save_accession_info (Form13FParser.parse_accession_info to_datetime content) s).
Proof.
  intros He Hc H1 H2. unfold Form13FParser.process_filing.
  destruct (Form13FParser.extract_xml content) as [[xml_data a] d].
  rewrite He, Hc. cbn [negb andb].
  now apply process_filing_data_appends with (cik := cik)
                                            (accession_number := accession_number).
Qed.

Lemma sample_filing_accession_file (s : sink) :
  accession_info_file
    (Form13FParser.process_filing to_datetime fromstring read_csv sample_filing s)
  = accession_info_file
      (save_accession_info (Form13FParser.parse_accession_info to_datetime sample_filing) s).
Proof.
  apply form13f_sample_accession_file
    with (cik := L "1234567") (accession_number := L "12345624000789");
    vm_compute; reflexivity.
Qed.

Lemma sample_filing_no_xml_accession_file (s : sink) :
  accession_info_file
    (Form13FParser.process_filing to_datetime fromstring read_csv sample_filing_no_xml s)
  = accession_info_file
      (save_accession_info
         (Form13FParser.parse_accession_info to_datetime sample_filing_no_xml) s).
Proof.
  apply form13f_sample_accession_file
    with (cik := L "1234567") (accession_number := L "12345624000789");
    vm_compute; reflexivity.
Qed.

End Sink.

(** C2, evaluated: processing the sample filing once stores one record
    for its accession number in [accession_info.csv]; processing the
    same filing a second time stores a second one.  The file is opened
    in append mode and nothing looks for the accession number in it. *)
Theorem reingestion_stores_second_record (to_datetime : cell -> cell)
    (fromstring : str -> option ET.element) (read_csv : csv -> frame) :
  let once :=
    Form13FParser.process_filing to_datetime fromstring read_csv sample_filing empty_sink in
  let twice :=
    Form13FParser.process_filing to_datetime fromstring read_csv sample_filing once in
  count_records sample_accession (accession_info_file once) = 1 /\
  count_records sample_accession (accession_info_file twice) = 2.
Proof.
  cbv zeta. rewrite !sample_filing_accession_file, !save_accession_info_counts.
  rewrite sample_filing_accession_file, save_accession_info_counts.
  split; vm_compute; reflexivity.
Qed.

(** C5, the path that misses: when the text has no [<XML>] section,
    [SECFilingParser.process_filing] returns without calling the data
    organizer; nothing is stored. *)
Theorem core_process_filing_skips_persistence (to_datetime : cell -> cell)
    (fromstring : str -> option ET.element) (read_csv : csv -> frame)
    (content : str) (s : sink) :
  xml_indices content = [] ->
  SECFilingParser.process_filing to_datetime fromstring read_csv content s = (Returns tt, s).
Proof.
  intros H. unfold SECFilingParser.process_filing, SECFilingParser.extract_xml,
    tagged_section.
  now rewrite H.
Qed.

Lemma core_process_filing_skips_persistence_witness :
  xml_indices sample_filing_no_xml = [] /\
  SECFilingParser.process_filing eight_digit_dates (fun _ => None)
    (fun _ => empty_frame) sample_filing_no_xml empty_sink = (Returns tt, empty_sink).
Proof.
  assert (H : xml_indices sample_filing_no_xml = []) by (vm_compute; reflexivity).
  exact (conj H (core_process_filing_skips_persistence eight_digit_dates (fun _ => None)
                   (fun _ => empty_frame) sample_filing_no_xml empty_sink H)).
Defined.

(** The sibling path does it: on the same text
    [Form13FParser.process_filing] stores the filing record. *)
Lemma form13f_persists_without_section (to_datetime : cell -> cell)
    (fromstring : str -> option ET.element) (read_csv : csv -> frame) :
  xml_indices sample_filing_no_xml = [] /\
  count_records sample_accession
    (accession_info_file
       (Form13FParser.process_filing to_datetime fromstring read_csv
          sample_filing_no_xml empty_sink)) = 1.
Proof.
  split; [vm_compute; reflexivity|].
  rewrite sample_filing_no_xml_accession_file, save_accession_info_counts.
  vm_compute. reflexivity.
Qed.

End SinkFacts.

(* ===================================================================== *)
(** * Further properties of the rate limiter                              *)
(* ===================================================================== *)

Module BucketMore.
Import RateLimiter BucketSpec BucketRun RateLimiterFacts.
Local Open Scope Q_scope.

Section Clock.
Variable delays : nat -> Q.







Hypothesis delays_nonneg : forall n, 0 <= delays n.


End Clock.










End BucketMore.

(* ===================================================================== *)
(** * Further properties of the index parser                              *)
(* ===================================================================== *)

Module IndexMore.
Import Py SECDownloader IndexSpec IndexFacts.

Lemma first_index_none (p : str -> bool) (lines : list str) : forall i,
  forallb (fun l => negb (p l)) lines = true -> first_index p lines i = None.
Proof.
  induction lines as [|l lines IH]; intros i H; [reflexivity|].
  cbn [forallb] in H. apply andb_true_iff in H. destruct H as [Hl Hls].
  apply negb_true_iff in Hl. cbn [first_index]. rewrite Hl. now apply IH.
Qed.

(** X4.  [_parse_form_idx] returns the empty frame, without raising,
    when the response status is not 200 and when no line of the index
    consists of dashes: without a separator line not a single record is
    read, whatever the text holds. *)
Theorem form_index_unavailable (r : response) :
  status_code r <> 200 \/
  forallb (fun l => negb (is_separator l)) (splitlines (text r)) = true ->
  _parse_form_idx r = [].
Proof.
  intros [H|H]; unfold _parse_form_idx.
  - apply Nat.eqb_neq in H. now rewrite H.
  - destruct (negb (status_code r =? 200)); [reflexivity|].
    now rewrite (first_index_none is_separator _ 0 H).
Qed.

Lemma form_index_unavailable_witness :
  (status_code (Response 404 sample_index) <> 200 \/
   forallb (fun l => negb (is_separator l))
           (splitlines (text (Response 404 sample_index))) = true) /\
  _parse_form_idx (Response 404 sample_index) = [].
Proof.
  assert (H : status_code (Response 404 sample_index) <> 200 \/
              forallb (fun l => negb (is_separator l))
                      (splitlines (text (Response 404 sample_index))) = true)
    by (left; discriminate).
  exact (conj H (form_index_unavailable (Response 404 sample_index) H)).
Defined.

Lemma skipn_short {A} (n : nat) (l : list A) : length l <= n -> skipn n l = [].
Proof.
  revert l. induction n as [|n IH]; intros [|x l] H; simpl in *; try reflexivity.
  - lia.
  - apply IH. lia.
Qed.

Lemma slice_short (line : str) (a b : nat) : length line <= a -> slice line a b = [].
Proof. intros H. unfold slice. rewrite (skipn_short a line H). apply firstn_nil. Qed.

Lemma slice_whole (line : str) (b : nat) : length line <= b -> slice line 0 b = line.
Proof. intros H. unfold slice. cbn [skipn]. apply firstn_all2. lia. Qed.

(** X5.  A line shorter than the column offsets is not an error: every
    column that starts at or beyond the end of the line is the empty
    string, and a line of at most twelve characters is, stripped, the
    form type alone. *)
Theorem short_index_line (line : str) :
  (length line <= 98 -> filename (entry_of_line line) = []) /\
  (length line <= 86 -> date_filed (entry_of_line line) = []) /\
  (length line <= 74 -> cik (entry_of_line line) = []) /\
  (length line <= 12 ->
   name (entry_of_line line) = [] /\ form_type (entry_of_line line) = strip line).
Proof.
  unfold entry_of_line. cbn [filename date_filed cik name form_type].
  split; [|split; [|split]]; intros H.
  - unfold slice_from. now rewrite (skipn_short 98 line H).
  - now rewrite (slice_short line 86 98 H).
  - now rewrite (slice_short line 74 86 H).
  - now rewrite (slice_short line 12 74 H), (slice_whole line 12 H).
Qed.

Lemma short_index_line_witness :
  length (L "13F-HR") <= 12 /\
  form_type (entry_of_line (L "13F-HR")) = strip (L "13F-HR").
Proof.
  assert (H : length (L "13F-HR") <= 12) by (simpl; lia).
  exact (conj H (proj2 (proj2 (proj2 (proj2 (short_index_line (L "13F-HR")))) H))).
Defined.

End IndexMore.

(* ===================================================================== *)
(** * Further properties of the holdings table                            *)
(* ===================================================================== *)

Module HoldingsMore.
Import Py PyNum Pandas ET DataOrganizer Holdings HoldingsSpec HoldingsFacts HoldingsRows.

Lemma assemble_rows put_call acc date (es : list entry) :
  Forall (entry_of_call put_call acc date) es ->
  forall c1 c2 c3 c4 c5,
  Forall (row_of_call put_call acc date) (assemble es c1 c2 c3 c4 c5).
Proof.
  induction 1 as [|e es He _ IH]; intros c1 c2 c3 c4 c5; [constructor|].
  destruct c1, c2, c3, c4, c5; try constructor.
  - exact He.
  - apply IH.
Qed.

Lemma assemble_length (es : list entry) : forall c1 c2 c3 c4 c5,
  length c1 = length es -> length c2 = length es -> length c3 = length es ->
  length c4 = length es -> length c5 = length es ->
  length (assemble es c1 c2 c3 c4 c5) = length es.
Proof.
  induction es as [|e es IH]; intros c1 c2 c3 c4 c5 H1 H2 H3 H4 H5; [reflexivity|].
  destruct c1, c2, c3, c4, c5; try discriminate.
  cbn [assemble length]. f_equal. apply IH; simpl in *; lia.
Qed.

Lemma convert_column_length (vs : list text) (rs : list (option Z)) :
  convert_column vs = Returns rs -> length rs = length vs.
Proof.
  intros H. apply convert_column_cells in H.
  symmetry. eapply Forall2_length. exact H.
Qed.

(** The frame that comes out of the five conversions. *)
Lemma convert_numeric_columns_inv (es : list entry) (df : holdings_frame) :
  convert_numeric_columns es = Returns df ->
  exists c1 c2 c3 c4 c5,
    df = assemble es c1 c2 c3 c4 c5 /\
    length c1 = length es /\ length c2 = length es /\ length c3 = length es /\
    length c4 = length es /\ length c5 = length es.
Proof.
  unfold convert_numeric_columns. intros H.
  destruct (convert_column (map e_share_value es)) as [c1|] eqn:E1; [|discriminate].
  destruct (convert_column (map e_share_amount es)) as [c2|] eqn:E2; [|discriminate].
  destruct (convert_column (map e_sole es)) as [c3|] eqn:E3; [|discriminate].
  destruct (convert_column (map e_shared es)) as [c4|] eqn:E4; [|discriminate].
  destruct (convert_column (map e_none es)) as [c5|] eqn:E5; [|discriminate].
  cbn [bind] in H. inversion H.
  apply convert_column_length in E1, E2, E3, E4, E5.
  rewrite length_map in E1, E2, E3, E4, E5.
  exists c1, c2, c3, c4, c5. repeat split; assumption.
Qed.

Lemma entries_of_call put_call root acc date :
  Forall (entry_of_call put_call acc date) (entries_of put_call root acc date).
Proof.
  unfold entries_of. apply List.Forall_forall. intros e He.
  apply in_map_iff in He. destruct He as (el & <- & _).
  unfold entry_of_call, entry_of. cbn. repeat split.
  destruct put_call; [discriminate|reflexivity].
Qed.

(** X6.  Every row [parse_holdings] returns carries the accession
    number and the period it was called with, for every parsed
    fragment; the rows of [Form13FParser] have a [PUT_CALL] column and
    those of [SECFilingParser] have none. *)
Theorem holdings_rows_carry_keys (fromstring : str -> option element)
    (xml_data : str) (accession_number conformed_date : option str) :
  Forall (row_of_call true accession_number conformed_date)
         (Form13FParser.parse_holdings fromstring xml_data accession_number conformed_date) /\
  Forall (row_of_call false accession_number conformed_date)
         (SECFilingParser.parse_holdings fromstring xml_data accession_number
            conformed_date).
Proof.
  unfold Form13FParser.parse_holdings, SECFilingParser.parse_holdings, holdings_of_root.
  destruct (fromstring xml_data) as [root|]; [|split; constructor].
  split.
  - fold (entries_of true root accession_number conformed_date).
    destruct (convert_numeric_columns _) as [df|] eqn:E; [|constructor].
    apply convert_numeric_columns_inv in E.
    destruct E as (c1 & c2 & c3 & c4 & c5 & -> & _).
    apply assemble_rows, entries_of_call.
  - fold (entries_of false root accession_number conformed_date).
    destruct (convert_numeric_columns _) as [df|] eqn:E; [|constructor].
    apply convert_numeric_columns_inv in E.
    destruct E as (c1 & c2 & c3 & c4 & c5 & -> & _).
    apply assemble_rows, entries_of_call.
Qed.

(** X7.  The holdings frame is all or nothing: for every parsed
    fragment it has either no row at all or exactly one row for each
    [infoTable] element found at any depth below the root; and a
    fragment that does not parse gives no row. *)
Theorem holdings_all_or_nothing (put_call : bool) (root : element)
    (accession_number conformed_date : option str) :
  (holdings_of_root put_call (Some root) accession_number conformed_date = [] \/
   length (holdings_of_root put_call (Some root) accession_number conformed_date)
   = length (findall_descendants (q "infoTable") root)) /\
  holdings_of_root put_call None accession_number conformed_date = [].
Proof.
  split; [|reflexivity].
  unfold holdings_of_root.
  fold (entries_of put_call root accession_number conformed_date).
  destruct (convert_numeric_columns _) as [df|] eqn:E; [|now left].
  right. apply convert_numeric_columns_inv in E.
  destruct E as (c1 & c2 & c3 & c4 & c5 & -> & H1 & H2 & H3 & H4 & H5).
  rewrite (assemble_length _ _ _ _ _ _ H1 H2 H3 H4 H5).
  unfold entries_of. apply length_map.
Qed.

End HoldingsMore.

(* ===================================================================== *)
(** * Further properties of the filing metadata                           *)
(* ===================================================================== *)

Module AccessionMore.
Import Py Re PyNum Pandas ET DataOrganizer BaseFilingParser HeaderSpec AccessionSpec.
Import PyFacts ReFacts LabelFacts HeaderFacts CikFacts CikClaims.

Lemma base_accession_frame to_datetime content :
  BaseFilingParser.parse_accession_info to_datetime content =
  Frame (map fst accession_patterns)
        [finish_accession to_datetime (extract accession_patterns content)].
Proof.
  unfold BaseFilingParser.parse_accession_info. cbn [fold_left].
  rewrite (update_column_map "CONFORMED_DATE") by reflexivity.
  rewrite (update_column_map "FILED_DATE") by reflexivity.
  rewrite (update_column_map "EFFECTIVENESS_DATE") by reflexivity.
  rewrite (update_column_astype "ACCESSION_NUMBER") by reflexivity.
  rewrite (update_column_astype_id "CIK") by reflexivity.
  reflexivity.
Qed.

Lemma form_13f_frame to_datetime content :
  Form13FParser.parse_accession_info to_datetime content =
  Frame form_13f_columns [form_13f_row to_datetime content].
Proof.
  unfold Form13FParser.parse_accession_info. rewrite base_accession_frame.
  reflexivity.
Qed.

Lemma form_13f_row_base to_datetime content (f : string) :
  table_entry f Form13FParser.form_13f_patterns = None ->
  get f (form_13f_row to_datetime content) =
  get f (finish_accession to_datetime (extract accession_patterns content)).
Proof.
  unfold form_13f_row. cbv zeta.
  generalize (finish_accession to_datetime (extract accession_patterns content)).
  generalize (<["IS_CONFIDENTIAL_OMITTED" :=
                 map_true_false
                   (get "IS_CONFIDENTIAL_OMITTED"
                      (extract Form13FParser.form_13f_patterns content))]>
                (extract Form13FParser.form_13f_patterns content)).
  intros info'.
  induction Form13FParser.form_13f_patterns as [|[k v] t IH]; intros base H;
    [reflexivity|].
  cbn [map fst fold_left]. cbn [table_entry] in H.
  destruct (table_entry f t) eqn:E; [discriminate|].
  destruct (String.eqb k f) eqn:Ek; [discriminate|].
  apply String.eqb_neq in Ek.
  rewrite (IH _ eq_refl). now apply get_insert_ne.
Qed.

Section Storage.

Variable to_datetime : cell -> cell.
Variable fromstring : str -> option element.
Variable read_csv : csv -> frame.

Lemma form_13f_key (content : str) (f : string) :
  has_column f (Frame form_13f_columns [form_13f_row to_datetime content]) = true ->
  key_of f (Form13FParser.parse_accession_info to_datetime content) =
  bind (int_of_cell (get f (form_13f_row to_datetime content)))
       (fun z => Returns (str_of_Z z)).
Proof.
  intros H. rewrite form_13f_frame. unfold key_of, iloc0, column. rewrite H.
  reflexivity.
Qed.

(** Without a usable CIK or accession number in the accession frame,
    [Form13FParser.process_filing] stores nothing. *)
Lemma form_13f_not_persisted (content : str) (s : sink) :
  get "CIK" (form_13f_row to_datetime content) = NA \/
  get "ACCESSION_NUMBER" (form_13f_row to_datetime content) = NA ->
  Form13FParser.process_filing to_datetime fromstring read_csv content s = s.
Proof.
  intros H. unfold Form13FParser.process_filing.
  destruct (Form13FParser.extract_xml content) as [[xml_data a] d].
  unfold process_filing_data.
  rewrite (form_13f_key content "CIK" eq_refl).
  rewrite (form_13f_key content "ACCESSION_NUMBER" eq_refl).
  rewrite form_13f_frame.
  change (is_empty (Frame form_13f_columns [form_13f_row to_datetime content]))
    with false.
  change (has_column "ACCESSION_NUMBER"
            (Frame form_13f_columns [form_13f_row to_datetime content])) with true.
  cbn [negb andb].
  destruct H as [H|H]; rewrite H; cbn [int_of_cell bind].
  - reflexivity.
  - now destruct (int_of_cell (get "CIK" (form_13f_row to_datetime content))).
Qed.

Lemma form_13f_cik (content : str) :
  get "CIK" (form_13f_row to_datetime content) =
  astype_float_ignore1
    (field_value [Lit cik_label; plus is_space; GOpen; exactly 10 is_digit; GClose]
                 NA content).
Proof.
  rewrite (form_13f_row_base to_datetime content "CIK" eq_refl).
  rewrite finish_accession_cik.
  now rewrite (extract_get accession_patterns content "CIK"
                 [Lit cik_label; plus is_space; GOpen; exactly 10 is_digit; GClose]
                 NA eq_refl).
Qed.

Lemma finish_accession_number (info : gmap string cell) :
  get "ACCESSION_NUMBER" (finish_accession to_datetime info) =
  astype_float_ignore1 (str_remove_hyphens (get "ACCESSION_NUMBER" info)).
Proof.
  unfold finish_accession. cbv zeta.
  rewrite (get_insert_ne "CIK" "ACCESSION_NUMBER") by discriminate.
  rewrite get_insert_eq.
  now rewrite !get_insert_ne by discriminate.
Qed.

Lemma form_13f_accession_number (content : str) :
  get "ACCESSION_NUMBER" (form_13f_row to_datetime content) =
  astype_float_ignore1
    (str_remove_hyphens (field_value accession_number_pattern NA content)).
Proof.
  rewrite (form_13f_row_base to_datetime content "ACCESSION_NUMBER" eq_refl).
  rewrite finish_accession_number.
  now rewrite (extract_get accession_patterns content "ACCESSION_NUMBER"
                 accession_number_pattern NA eq_refl).
Qed.

End Storage.

(** X8.  A filing whose header gives the CENTRAL INDEX KEY with fewer
    than ten digits is not persisted by [Form13FParser.process_filing]:
    the accession frame has no CIK, the data organizer raises on it
    before writing anything, the exception is swallowed and the storage
    is left as it was. *)
Theorem short_cik_not_persisted (to_datetime : cell -> cell)
    (fromstring : str -> option element) (read_csv : csv -> frame)
    (pre ws ds rest : str) (s : sink) :
  occurrences cik_label (pre ++ cik_label ++ ws ++ ds ++ rest) = [length pre] ->
  ws <> [] ->
  forallb is_space ws = true ->
  ds <> [] ->
  forallb is_digit ds = true ->
  starts_in is_digit rest = false ->
  length ds < 10 ->
  Form13FParser.process_filing to_datetime fromstring read_csv
    (pre ++ cik_label ++ ws ++ ds ++ rest) s = s.
Proof.
  intros H1 H2 H3 H4 H5 H6 H7. apply form_13f_not_persisted. left.
  rewrite form_13f_cik.
  now rewrite (accession_cik_short pre ws ds rest) by assumption.
Qed.

Lemma short_cik_not_persisted_witness :
  occurrences cik_label
    (L "CIK" ++ cik_label ++ L "   " ++ L "1234567" ++ L " end") = [length (L "CIK")] /\
  L "   " <> [] /\
  forallb is_space (L "   ") = true /\
  L "1234567" <> [] /\
  forallb is_digit (L "1234567") = true /\
  starts_in is_digit (L " end") = false /\
  length (L "1234567") < 10 /\
  Form13FParser.process_filing eight_digit_dates (fun _ => None) (fun _ => empty_frame)
    (L "CIK" ++ cik_label ++ L "   " ++ L "1234567" ++ L " end") empty_sink = empty_sink.
Proof.
  assert (H1 : occurrences cik_label
                 (L "CIK" ++ cik_label ++ L "   " ++ L "1234567" ++ L " end")
               = [length (L "CIK")]) by reflexivity.
  assert (H2 : L "   " <> []) by discriminate.
  assert (H3 : forallb is_space (L "   ") = true) by reflexivity.
  assert (H4 : L "1234567" <> []) by discriminate.
  assert (H5 : forallb is_digit (L "1234567") = true) by reflexivity.
  assert (H6 : starts_in is_digit (L " end") = false) by reflexivity.
  assert (H7 : length (L "1234567") < 10) by (simpl; lia).
  exact (conj H1 (conj H2 (conj H3 (conj H4 (conj H5 (conj H6 (conj H7
           (short_cik_not_persisted eight_digit_dates (fun _ => None)
              (fun _ => empty_frame) (L "CIK") (L "   ") (L "1234567") (L " end")
              empty_sink H1 H2 H3 H4 H5 H6 H7)))))))).
Defined.

(** X9.  A text without a CENTRAL INDEX KEY label, or without an
    ACCESSION NUMBER label, is not persisted by
    [Form13FParser.process_filing]: the storage is left as it was and
    no exception reaches the caller. *)
Theorem unlabeled_filing_not_persisted (to_datetime : cell -> cell)
    (fromstring : str -> option element) (read_csv : csv -> frame)
    (content : str) (s : sink) :
  occurrences cik_label content = [] \/ occurrences accession_label content = [] ->
  Form13FParser.process_filing to_datetime fromstring read_csv content s = s.
Proof.
  intros H. apply form_13f_not_persisted. destruct H as [H|H].
  - left. rewrite form_13f_cik. unfold field_value.
    now rewrite (search_no_occurrence _ _ _ H).
  - right. rewrite form_13f_accession_number.
    unfold field_value, accession_number_pattern. fold accession_label.
    now rewrite (search_no_occurrence _ _ _ H).
Qed.

Lemma unlabeled_filing_not_persisted_witness :
  (occurrences cik_label header_without_state = [] \/
   occurrences accession_label header_without_state = []) /\
  Form13FParser.process_filing eight_digit_dates (fun _ => None) (fun _ => empty_frame)
    header_without_state empty_sink = empty_sink.
Proof.
  assert (H : occurrences cik_label header_without_state = [] \/
              occurrences accession_label header_without_state = [])
    by (right; reflexivity).
  exact (conj H (unlabeled_filing_not_persisted eight_digit_dates (fun _ => None)
                   (fun _ => empty_frame) header_without_state empty_sink H)).
Defined.

End AccessionMore.

Module AccessionNumber.
Import Py Re PyNum Pandas ET DataOrganizer BaseFilingParser HeaderSpec AccessionSpec.
Import PyFacts ReFacts LabelFacts HeaderFacts CikFacts AccessionMore.





Section OneAccession.

Variables pre ws d1 d2 d3 rest : str.

(** A text with one ACCESSION NUMBER label, followed by blanks and three
    runs of digits joined by hyphens. *)
Let number : str := d1 ++ L "-" ++ d2 ++ L "-" ++ d3.
Let content : str := pre ++ accession_label ++ ws ++ number ++ rest.

Hypothesis one_label : occurrences accession_label content = [length pre].
Hypothesis ws_nonempty : ws <> [].
Hypothesis ws_blank : forallb is_space ws = true.
Hypothesis d1_nonempty : d1 <> [].
Hypothesis d2_nonempty : d2 <> [].
Hypothesis d3_nonempty : d3 <> [].
Hypothesis d1_digits : forallb is_digit d1 = true.
Hypothesis d2_digits : forallb is_digit d2 = true.
Hypothesis d3_digits : forallb is_digit d3 = true.
Hypothesis rest_no_digit : starts_in is_digit rest = false.










End OneAccession.



End AccessionNumber.

Module CopyFacts.
Import Py Pandas HeaderFacts.

(** A row into which the columns [cols] are copied holds the copied
    value in each of them and its own value elsewhere. *)
Lemma fold_copy_get (g : string -> cell) (cols : list string) (f : string) :
  forall base : gmap string cell,
  get f (fold_left (fun r col => <[col := g col]> r) cols base) =
  if existsb (String.eqb f) cols then g f else get f base.
Proof.
  induction cols as [|k cols IH]; intros base; [reflexivity|].
  cbn [fold_left existsb]. rewrite IH.
  destruct (existsb (String.eqb f) cols); [now rewrite orb_true_r|].
  rewrite orb_false_r. destruct (String.eqb f k) eqn:E.
  - apply String.eqb_eq in E. subst k. apply get_insert_eq.
  - apply String.eqb_neq in E. apply get_insert_ne. congruence.
Qed.

End CopyFacts.

Module ConfidentialFlag.
Import Py Re PyNum Pandas ET DataOrganizer BaseFilingParser HeaderSpec AccessionSpec.
Import PyFacts ReFacts LabelFacts HeaderFacts CikFacts AccessionMore CopyFacts.

Lemma strip_prefix_app_l (a b s : str) :
  strip_prefix (a ++ b) s =
  match strip_prefix a s with
  | Some s' => strip_prefix b s'
  | None => None
  end.
Proof.
  revert s. induction a as [|x a IH]; intros s; [reflexivity|].
  cbn [app strip_prefix]. destruct s as [|y s]; [reflexivity|].
  destruct (Ascii.eqb x y); [apply IH|reflexivity].
Qed.

Lemma form_13f_confidential to_datetime content :
  get "IS_CONFIDENTIAL_OMITTED" (form_13f_row to_datetime content) =
  map_true_false
    (field_value (SECFilingParser.tag_choice "isConfidentialOmitted" "true" "false")
                 NA content).
Proof.
  unfold form_13f_row. cbv zeta. rewrite fold_copy_get.
  change (existsb (String.eqb "IS_CONFIDENTIAL_OMITTED")
            (map fst Form13FParser.form_13f_patterns)) with true.
  cbv iota. rewrite get_insert_eq.
  now rewrite (extract_get Form13FParser.form_13f_patterns content
                 "IS_CONFIDENTIAL_OMITTED"
                 (SECFilingParser.tag_choice "isConfidentialOmitted" "true" "false")
                 NA eq_refl).
Qed.

Lemma true_not_false (s1 : str) : strip_prefix (L "false") (L "true" ++ s1) = None.
Proof. reflexivity. Qed.

(** What the pattern [isConfidentialOmitted>(true|false)</] reads right
    after the tag. *)
Lemma match_confidential (tail : str) :
  map_true_false
    (match match_at (SECFilingParser.tag_choice "isConfidentialOmitted" "true" "false")
                    (confidential_tag ++ tail) 0 with
     | Some m =>
         match m_group1 m with
         | Some t => Str (strip t)
         | None => NA
         end
     | None => NA
     end) = confidential_value tail.
Proof.
  unfold match_at, SECFilingParser.tag_choice, confidential_value.
  change (L "isConfidentialOmitted" ++ L ">") with confidential_tag.
  cbn [match_here]. rewrite strip_prefix_app. cbn [record first_some].
  change (L "true</") with (L "true" ++ L "</").
  change (L "false</") with (L "false" ++ L "</").
  rewrite !strip_prefix_app_l.
  destruct (strip_prefix (L "true") tail) as [s1|] eqn:E1.
  - cbn [match_here record close app].
    destruct (strip_prefix (L "</") s1) as [s2|] eqn:E2.
    + reflexivity.
    + apply strip_prefix_Some in E1. subst tail. rewrite true_not_false. reflexivity.
  - destruct (strip_prefix (L "false") tail) as [s1|] eqn:E1'; [|reflexivity].
    cbn [match_here record close app].
    now destruct (strip_prefix (L "</") s1).
Qed.

(** X11.  The boolean column of the 13F metadata.  For a text in which
    the tag [isConfidentialOmitted>] occurs once,
    [IS_CONFIDENTIAL_OMITTED] is the boolean [True] when the tag is
    followed by [true</], [False] when it is followed by [false</], and
    absent in every other case (another spelling such as [TRUE], blanks
    around the token, anything else). *)
Theorem confidential_flag_values (to_datetime : cell -> cell) (pre tail : str) :
  occurrences confidential_tag (pre ++ confidential_tag ++ tail) = [length pre] ->
  map (get "IS_CONFIDENTIAL_OMITTED")
      (rows (Form13FParser.parse_accession_info to_datetime
               (pre ++ confidential_tag ++ tail)))
  = [confidential_value tail].
Proof.
  intros H. rewrite form_13f_frame. cbn [rows map].
  rewrite form_13f_confidential. unfold field_value.
  rewrite <- (match_confidential tail).
  unfold SECFilingParser.tag_choice at 1.
  change (L "isConfidentialOmitted" ++ L ">") with confidential_tag.
  rewrite search_occurrences, H. cbn [first_some]. rewrite skipn_app_length.
  unfold SECFilingParser.tag_choice.
  change (L "isConfidentialOmitted" ++ L ">") with confidential_tag.
  unfold match_at.
  now destruct (match_here _ _ _ _) as [[n g]|].
Qed.

Lemma confidential_flag_values_witness :
  occurrences confidential_tag (L "<x>" ++ confidential_tag ++ L "TRUE</x>")
    = [length (L "<x>")] /\
  map (get "IS_CONFIDENTIAL_OMITTED")
      (rows (Form13FParser.parse_accession_info eight_digit_dates
               (L "<x>" ++ confidential_tag ++ L "TRUE</x>")))
  = [confidential_value (L "TRUE</x>")].
Proof.
  assert (H : occurrences confidential_tag (L "<x>" ++ confidential_tag ++ L "TRUE</x>")
              = [length (L "<x>")]) by reflexivity.
  exact (conj H (confidential_flag_values eight_digit_dates (L "<x>") (L "TRUE</x>") H)).
Defined.

End ConfidentialFlag.

Module BucketTimeout.
Import RateLimiter BucketSpec BucketRun BucketClock RateLimiterFacts BucketMore.
Local Open Scope Q_scope.

Lemma reads_two (r : nat) : (S (S r) - r = 2)%nat.
Proof. lia. Qed.

Lemma reads_three (r : nat) : (S (S (S r)) - r = 3)%nat.
Proof. lia. Qed.

Lemma reads_four (r : nat) : (S (S (S (S r))) - r = 4)%nat.
Proof. lia. Qed.

Lemma reads_five (r : nat) : (S (S (S (S (S r)))) - r = 5)%nat.
Proof. lia. Qed.

(** X12.  A call with a timeout never sleeps past it.  Whatever the
    bucket, the request and the clock (as long as it does not run
    backwards), the time that passes during [acquire(n, block, t)] with
    [t >= 0] is at most [t] plus the time taken by the readings of the
    clock the call makes. *)
Theorem acquire_within_timeout (delays : nat -> Q) (n : Z) (block : bool) (t : Q)
    (b : bucket) (w : world) :
  (forall k, 0 <= delays k) ->
  0 <= t ->
  now (snd (acquire delays n block (Some t) b w)) - now w <=
  t + delay_sum delays (reads w)
        (reads (snd (acquire delays n block (Some t) b w)) - reads w).
Proof.
  intros Hd Ht.
  pose proof (Hd (reads w)) as H0. pose proof (Hd (S (reads w))) as H1.
  pose proof (Hd (S (S (reads w)))) as H2. pose proof (Hd (S (S (S (reads w))))) as H3.
  pose proof (Hd (S (S (S (S (reads w)))))) as H4.
  unfold acquire, _refill. cbn [time_time now reads].
  destruct (Qgeb _ (inject_Z n)).
  { cbn [snd now reads]. rewrite reads_two. cbn [delay_sum]. lra. }
  destruct block; cbn [negb].
  2:{ cbn [snd now reads]. rewrite reads_two. cbn [delay_sum]. lra. }
  cbn [rate]. destruct (Qeq_bool (rate b) 0).
  { cbn [snd now reads]. rewrite reads_two. cbn [delay_sum]. lra. }
  unfold acquire_wait.
  destruct (Qgtb _ t).
  { cbn [snd now reads]. rewrite reads_two. cbn [delay_sum]. lra. }
  cbn [time_time now reads].
  destruct (Qgeb _ t).
  { cbn [snd now reads]. rewrite reads_three. cbn [delay_sum]. lra. }
  destruct (Qgtb _ 0).
  2:{ cbn [snd now reads]. rewrite reads_three. cbn [delay_sum]. lra. }
  destruct (Qle_bool _ 0).
  { cbn [snd now reads]. rewrite reads_four. cbn [delay_sum]. lra. }
  unfold _refill, time_sleep. cbn [time_time now reads].
  match goal with |- context [Qmin (?a / ?r) ?c] =>
    pose proof (Q.le_min_r (a / r) c) as Hm;
    set (slept := Qmin (a / r) c) in *; clearbody slept end.
  destruct (Qgeb _ (inject_Z n));
    cbn [snd now reads]; rewrite reads_five; cbn [delay_sum]; lra.
Qed.

Lemma acquire_within_timeout_witness :
  (forall k, 0 <= tick k) /\ 0 <= 1 # 2 /\
  now (snd (acquire tick 7 true (Some (1 # 2)) (take 5 sample_bucket) (World 0 0))) - 0 <=
  (1 # 2) + delay_sum tick 0
     (reads (snd (acquire tick 7 true (Some (1 # 2)) (take 5 sample_bucket) (World 0 0)))
      - 0).
Proof.
  assert (H1 : forall k, 0 <= tick k) by (intros k; unfold tick; lra).
  assert (H2 : 0 <= 1 # 2) by lra.
  exact (conj H1 (conj H2
           (acquire_within_timeout tick 7 true (1 # 2) (take 5 sample_bucket) (World 0 0)
              H1 H2))).
Defined.

End BucketTimeout.

(* ===================================================================== *)
(** * Further properties of the data organizer                            *)
(* ===================================================================== *)

Module OrganizerMore.
Import Py Re PyNum Pandas ET DataOrganizer SinkSpec SinkSamples.
Import PyFacts HeaderFacts SinkFacts CopyFacts.

(** The records of a sequence of frames, in the order they are saved. *)
Lemma saves_accession_file (dfs : list frame) : forall (s : sink) (f : csv),
  accession_info_file s = Some f ->
  accession_info_file (fold_left (fun s d => save_accession_info d s) dfs s)
  = Some (f ++ flat_map (fun d => map Data (rows d)) dfs).
Proof.
  induction dfs as [|d dfs IH]; intros s f Hf; cbn [fold_left flat_map].
  - now rewrite app_nil_r.
  - rewrite (IH _ (f ++ map Data (rows d))).
    + now rewrite app_assoc.
    + unfold save_accession_info. cbn [accession_info_file]. now rewrite Hf.
Qed.

(** X13.  One header line.  However many frames are saved to
    [accession_info.csv], one after the other, the file keeps what it
    held and gets the records of all the frames in order; the only
    header line written is that of the first frame saved to a file
    that did not exist, so the records of later frames stand under the
    columns of the first one, whatever their own columns are. *)
Theorem accession_file_single_header (df : frame) (dfs : list frame) (s : sink) :
  accession_info_file (fold_left (fun s d => save_accession_info d s) (df :: dfs) s)
  = Some (match accession_info_file s with
          | Some f => f
          | None => [Header (columns df)]
          end ++ flat_map (fun d => map Data (rows d)) (df :: dfs)).
Proof.
  cbn [fold_left flat_map].
  rewrite (saves_accession_file dfs (save_accession_info df s)
             (match accession_info_file s with
              | Some f => f
              | None => [Header (columns df)]
              end ++ map Data (rows df))).
  - now rewrite app_assoc.
  - unfold save_accession_info, to_csv. cbn [accession_info_file].
    destruct (accession_info_file s); cbn [negb app]; reflexivity.
Qed.

Section Organizer.
Variable read_csv : csv -> frame.

Lemma save_company_info_raises (df : frame) (s s' : sink) e :
  save_company_info read_csv df s = (Raises e, s') -> s' = s.
Proof.
  unfold save_company_info.
  destruct (company_info_file s); [|discriminate].
  destruct (iloc0 "CIK" df); [|congruence].
  destruct (column "CIK" (read_csv c)); [discriminate|congruence].
Qed.

Lemma partial_write (accession_info_df company_info_df : frame)
    (holdings_df : holdings_frame) (s : sink) (cik accession_number : str) e :
  key_of "CIK" accession_info_df = Returns cik ->
  key_of "ACCESSION_NUMBER" accession_info_df = Returns accession_number ->
  fst (save_company_info read_csv company_info_df
         (save_accession_info accession_info_df s)) = Raises e ->
  process_filing_data read_csv accession_info_df company_info_df holdings_df s
  = (Raises e, save_accession_info accession_info_df s).
Proof.
  intros H1 H2 H3. unfold process_filing_data. rewrite H1, H2.
  destruct (save_company_info read_csv company_info_df _) as [[u|e'] s2] eqn:E;
    cbn [fst] in H3; [discriminate|].
  apply save_company_info_raises in E. congruence.
Qed.

End Organizer.

(** X14.  [process_filing_data] is not all-or-nothing.  When the two
    keys can be read but the update of [company_info.csv] raises (the
    frame has no CIK, or the file on disk has no CIK column), the call
    raises with the accession records already appended to
    [accession_info.csv]; the company file and the holdings files are
    as before, so the filing is left with an accession record and no
    holdings file. *)
Theorem failed_company_update_keeps_accession_record (read_csv : csv -> frame)
    (accession_info_df company_info_df : frame) (holdings_df : holdings_frame)
    (s : sink) (cik accession_number : str) (e : exn) :
  key_of "CIK" accession_info_df = Returns cik ->
  key_of "ACCESSION_NUMBER" accession_info_df = Returns accession_number ->
  fst (save_company_info read_csv company_info_df
         (save_accession_info accession_info_df s)) = Raises e ->
  let r := process_filing_data read_csv accession_info_df company_info_df holdings_df s in
  fst r = Raises e /\
  accession_info_file (snd r) =
    Some (match accession_info_file s with Some f => f | None => [] end ++
          to_csv (match accession_info_file s with Some _ => false | None => true end)
                 accession_info_df) /\
  company_info_file (snd r) = company_info_file s /\
  holdings_files (snd r) = holdings_files s.
Proof.
  intros H1 H2 H3 r. unfold r.
  rewrite (partial_write read_csv _ _ _ _ _ _ _ H1 H2 H3). cbn [fst snd].
  unfold save_accession_info. cbn [accession_info_file company_info_file holdings_files].
  repeat split. now destruct (accession_info_file s).
Qed.

Lemma failed_company_update_keeps_accession_record_witness :
  key_of "CIK" sample_accession_frame = Returns (L "1234567") /\
  key_of "ACCESSION_NUMBER" sample_accession_frame = Returns (L "12345624000789") /\
  fst (save_company_info read_plain sample_company_frame
         (save_accession_info sample_accession_frame sink_with_foreign_company_file))
    = Raises KeyError /\
  accession_info_file
    (snd (process_filing_data read_plain sample_accession_frame sample_company_frame []
            sink_with_foreign_company_file))
  = Some ([] ++ to_csv true sample_accession_frame).
Proof.
  assert (H1 : key_of "CIK" sample_accession_frame = Returns (L "1234567"))
    by reflexivity.
  assert (H2 : key_of "ACCESSION_NUMBER" sample_accession_frame
               = Returns (L "12345624000789")) by reflexivity.
  assert (H3 : fst (save_company_info read_plain sample_company_frame
                      (save_accession_info sample_accession_frame
                         sink_with_foreign_company_file)) = Raises KeyError)
    by reflexivity.
  exact (conj H1 (conj H2 (conj H3
           (proj1 (proj2 (failed_company_update_keeps_accession_record read_plain
                            sample_accession_frame sample_company_frame []
                            sink_with_foreign_company_file _ _ KeyError H1 H2 H3)))))).
Defined.






End OrganizerMore.

(* ===================================================================== *)
(** * The parser factory and the fallback of the 13F fragment             *)
(* ===================================================================== *)

Module FactoryFacts.
Import Py Re BaseFilingParser ParserFactory.

(** A text that starts with [l] contains [l]. *)
Lemma startswith_contains (l s : str) :
  startswith l s = true -> contains l s = true.
Proof.
  unfold startswith, contains.
  destruct s as [|c s]; cbn [find_from]; destruct (strip_prefix l _);
    congruence.
Qed.

Lemma choice_of_form_type (ft : str) :
  match ft with
  | c :: t =>
      if startswith (L "13F") (c :: t) || contains (L "13F") (c :: t)
      then Form13FParser_class
      else BaseFilingParser_class
  | [] => BaseFilingParser_class
  end = if contains (L "13F") ft then Form13FParser_class else BaseFilingParser_class.
Proof.
  destruct ft as [|c t]; [reflexivity|].
  destruct (startswith (L "13F") (c :: t)) eqn:E; [|reflexivity].
  now rewrite (startswith_contains _ _ E).
Qed.

(** X16.  The parser the factory picks.  A form type that is given
    decides alone, and the content is not looked at, even when the form
    type is the empty string; without a form type the decision is made
    on what [BaseFilingParser.get_form_type] reads from the content; in
    both cases the 13F parser is picked exactly when the form type
    contains [13F] (the [startswith] test of the code adds nothing);
    without form type and content the base parser is picked. *)
Theorem factory_choice (form_type content : str) (any : option str) :
  create_parser (Some form_type) any =
    (if contains (L "13F") form_type then Form13FParser_class
     else BaseFilingParser_class) /\
  create_parser None (Some content) =
    (if contains (L "13F") (get_form_type content) then Form13FParser_class
     else BaseFilingParser_class) /\
  create_parser None None = BaseFilingParser_class.
Proof.
  split; [|split].
  - unfold create_parser. destruct any; apply (choice_of_form_type form_type).
  - unfold create_parser, _extract_form_type, get_form_type.
    destruct (search submission_type_pattern content) as [m|]; [|reflexivity].
    destruct (m_group1 m) as [t|]; [|reflexivity].
    apply (choice_of_form_type (strip t)).
  - reflexivity.
Qed.

End FactoryFacts.

Module FallbackFacts.
Import Py Re Pandas BaseFilingParser Fragment FragmentSpec FallbackSamples.
Import PyFacts ReFacts LabelFacts.

(** A match found by [search] is a match at the place it starts. *)
Lemma search_from_sound (p : pattern) (s : str) : forall pos m,
  search_from p s pos = Some m ->
  exists k, m_start m = pos + k /\ match_at p (skipn k s) (pos + k) = Some m.
Proof.
  induction s as [|c s IH]; intros pos m; cbn [search_from].
  - destruct (match_at p [] pos) as [m'|] eqn:E; [|discriminate].
    intros H. injection H as <-. exists 0. rewrite Nat.add_0_r. cbn [skipn].
    split; [|exact E]. unfold match_at in E.
    destruct (match_here p [] 0 GNone) as [[n g]|]; [|discriminate].
    now injection E as <-.
  - destruct (match_at p (c :: s) pos) as [m'|] eqn:E.
    + intros H. injection H as <-. exists 0. rewrite Nat.add_0_r. cbn [skipn].
      split; [|exact E]. unfold match_at in E.
      destruct (match_here p (c :: s) 0 GNone) as [[n g]|]; [|discriminate].
      now injection E as <-.
    + intros H. destruct (IH _ _ H) as (k & Hk & Hm).
      exists (S k). rewrite Nat.add_succ_r. cbn [skipn]. now split.
Qed.

Lemma declaration_start (t : str) (pos : nat) m :
  match_at Form13FParser.xml_declaration t pos = Some m ->
  exists r, t = L "<?xml" ++ r.
Proof.
  unfold match_at, Form13FParser.xml_declaration. cbn [match_here].
  destruct (strip_prefix (L "<?xml") t) as [r|] eqn:E; [|discriminate].
  intros _. exists r. now apply strip_prefix_Some.
Qed.

Lemma drop_while_head p (s : str) c r : drop_while p s = c :: r -> p c = false.
Proof.
  induction s as [|x s IH]; cbn [drop_while]; [discriminate|].
  destruct (p x) eqn:E; [exact IH|].
  intros H. injection H as <- _. exact E.
Qed.

Lemma first_word_nonempty (s w : str) : first_word s = Some w -> w <> [].
Proof.
  unfold first_word. destruct (drop_while is_space s) as [|c r] eqn:E; [discriminate|].
  intros H. injection H as <-. apply drop_while_head in E.
  cbn [take_while]. rewrite E. discriminate.
Qed.

(** [rfind] returns a place, not before [start], at which the text
    occurs. *)
Lemma rfind_aux_sound (l s : str) : forall pos i,
  rfind_aux l s pos = Some i ->
  exists k r, i = pos + k /\ k <= length s /\ skipn k s = l ++ r.
Proof.
  induction s as [|c s IH]; intros pos i; cbn [rfind_aux].
  - destruct (strip_prefix l []) as [r|] eqn:E; [|discriminate].
    intros H. injection H as <-. exists 0, r.
    rewrite Nat.add_0_r. cbn [skipn length].
    split; [reflexivity|split; [lia|now apply strip_prefix_Some]].
  - destruct (rfind_aux l s (S pos)) as [j|] eqn:E.
    + intros H. injection H as <-. destruct (IH _ _ E) as (k & r & Hk & Hle & Hr).
      exists (S k), r. rewrite Nat.add_succ_r. cbn [skipn length].
      split; [exact Hk|split; [lia|exact Hr]].
    + destruct (strip_prefix l (c :: s)) as [r|] eqn:E'; [|discriminate].
      intros H. injection H as <-. exists 0, r.
      rewrite Nat.add_0_r. cbn [skipn].
      split; [reflexivity|split; [lia|now apply strip_prefix_Some]].
Qed.

Lemma firstn_app_exact {A} (a b : list A) (n : nat) :
  firstn (length a + n) (a ++ b) = a ++ firstn n b.
Proof. induction a as [|x a IH]; cbn; [reflexivity|now rewrite IH]. Qed.

(** The text cut from a place to the end of an occurrence found by
    [rfind] from that place ends with the occurrence. *)
Lemma slice_to_rfind (l s : str) (start i : nat) :
  rfind l s start = Some i ->
  exists body, slice s start (i + length l) = body ++ l.
Proof.
  unfold rfind. destruct (Nat.ltb (length s) start); [discriminate|].
  intros H. destruct (rfind_aux_sound _ _ _ _ H) as (k & r & -> & Hle & Hr).
  exists (firstn k (skipn start s)). unfold slice.
  replace (start + k + length l - start) with (k + length l) by lia.
  rewrite <- (firstn_skipn k (skipn start s)) at 1. rewrite Hr.
  assert (Hlen : length (firstn k (skipn start s)) = k)
    by (rewrite length_firstn; lia).
  rewrite <- Hlen at 1. rewrite firstn_app_exact. now rewrite firstn_app_length.
Qed.

Lemma slice_from_declaration (s r : str) (start stop : nat) :
  skipn start s = L "<?xml" ++ r -> start + 5 <= stop ->
  exists rest, slice s start stop = L "<?xml" ++ rest.
Proof.
  intros H Hle. unfold slice. rewrite H.
  assert (E : stop - start = length (L "<?xml") + (stop - (start + 5)))
    by (cbn [length L list_ascii_of_string]; lia).
  exists (firstn (stop - (start + 5)) r). rewrite E.
  apply firstn_app_exact.
Qed.

Lemma after_declaration_shape (content x : str) :
  Form13FParser.after_declaration content = Returns (Some x) ->
  (exists rest, x = L "<?xml" ++ rest) /\
  (exists body tag, tag <> [] /\ x = body ++ L "</" ++ tag ++ L ">").
Proof.
  unfold Form13FParser.after_declaration.
  destruct (search Form13FParser.xml_declaration content) as [m|] eqn:Es; [|discriminate].
  destruct (search Form13FParser.opening_tag _) as [o|]; [|discriminate].
  destruct (first_word _) as [tag|] eqn:Ef; [|discriminate].
  destruct (rfind _ content (m_start m)) as [ci|] eqn:Er; [|discriminate].
  destruct (Nat.ltb (m_start m) ci) eqn:El; [|discriminate].
  intros H. injection H as <-. apply Nat.ltb_lt in El.
  apply first_word_nonempty in Ef.
  split.
  - destruct (search_from_sound _ _ _ _ Es) as (k & Hk & Hm). cbn [Nat.add] in Hk, Hm.
    destruct (declaration_start _ _ _ Hm) as [r Hr]. rewrite <- Hk in Hr.
    apply (slice_from_declaration content r); [exact Hr|].
    rewrite !length_app. cbn [length L list_ascii_of_string].
    destruct tag; [congruence|cbn [length]; lia].
  - destruct (slice_to_rfind _ _ _ _ Er) as [body Hb].
    exists body, tag. split; [exact Ef|exact Hb].
Qed.

(** X17.  The fragment of method 2.  For a text without [<XML>]
    section in which [Form13FParser.extract_xml] finds its fragment
    after an XML declaration, the fragment returned starts with the
    declaration itself ([<?xml], which method 1 deletes from its
    sections when it follows a line feed) and ends with a closing tag
    [</name>] of a non-empty name. *)
Theorem declared_fragment_shape (content x : str) :
  tagged_section content = None ->
  Form13FParser.after_declaration content = Returns (Some x) ->
  fst (fst (Form13FParser.extract_xml content)) = Some x /\
  (exists rest, x = L "<?xml" ++ rest) /\
  (exists body tag, tag <> [] /\ x = body ++ L "</" ++ tag ++ L ">").
Proof.
  intros H1 H2. split; [|exact (after_declaration_shape content x H2)].
  unfold Form13FParser.extract_xml. now rewrite H1, H2.
Qed.

Lemma declared_fragment_shape_witness :
  tagged_section filing_untagged = None /\
  Form13FParser.after_declaration filing_untagged = Returns (Some declared_fragment) /\
  fst (fst (Form13FParser.extract_xml filing_untagged)) = Some declared_fragment.
Proof.
  assert (H1 : tagged_section filing_untagged = None) by (vm_compute; reflexivity).
  assert (H2 : Form13FParser.after_declaration filing_untagged
               = Returns (Some declared_fragment)) by (vm_compute; reflexivity).
  exact (conj H1 (conj H2
           (proj1 (declared_fragment_shape filing_untagged declared_fragment H1 H2)))).
Defined.

End FallbackFacts.
